(** * Vixen Dio Pro: the OpenROAD synthesis driver [scripts/vixen_synthesis.py]

    A shallow embedding of the driver script and the properties of its
    orchestration logic.  The script touches three things outside itself:
    the file system, the console and child processes started through the
    shell.  They are modelled as follows.

    - A [Path] is what [pathlib.PurePosixPath] holds: an anchor and the list
      of components; [str], [parent] and [/] are the lexical operations of
      pathlib.
    - The file system is a finite map from the text of a path to a node
      (a directory or a regular file with its text).  Permissions are not
      modelled: every operation that the directory structure allows succeeds.
    - Text is a [string] of bytes; a Python [str] is held as its UTF-8
      bytes.  What the interpreter does between the bytes of a file and the
      text that [read] returns (decoding in the encoding of the locale,
      translation of line ends) is a parameter [decode], which gives no text
      for bytes that do not decode; [str.lower] is a parameter [str_lower].
    - An operation is a function from the [World] to a result [Res]: the
      value or the raised exception, the lines it printed with [print], and
      the world it leaves behind.
    - A child process is an oracle [spawn]: from the command line, the
      working directory and the file system it gives either the message of
      the [OSError] raised by [subprocess.run] before the child runs, or the
      exit status, the text the child wrote on stdout/stderr, the file
      system the child leaves and the time it took.  The printed lines are
      those of [print]; what a child writes on an inherited stdout is not
      recorded. *)

From Stdlib Require Import ZArith Ascii String List Lia Bool.
From stdpp Require Import gmap strings list fin_maps pretty.

Local Open Scope string_scope.
Local Open Scope Z_scope.

(** ** Text *)

(** The double quote, the line feed and the backslash, written by their
    codes. *)
Definition dq : string := String "034"%char "".
Definition nl : string := String "010"%char "".
Definition bsl : string := String "092"%char "".

(** [q s] is [s] between double quotes. *)
Definition q (s : string) : string := dq +:+ s +:+ dq.

(** Every line followed by a line feed. *)
Fixpoint unlines (ls : list string) : string :=
  match ls with
  | [] => ""
  | l :: ls' => l +:+ nl +:+ unlines ls'
  end.

(** Python's [s * n]. *)
Fixpoint str_repeat (s : string) (n : nat) : string :=
  match n with
  | O => ""
  | S n' => s +:+ str_repeat s n'
  end.

(** Python's [sep.join(l)]. *)
Fixpoint join (sep : string) (l : list string) : string :=
  match l with
  | [] => ""
  | [x] => x
  | x :: l' => x +:+ sep +:+ join sep l'
  end.

(** What [str.lower] does to a text of ASCII characters: the letters A-Z
    are mapped to a-z, every other byte is kept. *)
Definition lower_ascii (c : ascii) : ascii :=
  let n := nat_of_ascii c in
  if ((65 <=? n)%nat && (n <=? 90)%nat)%bool then ascii_of_nat (n + 32) else c.

Fixpoint ascii_lower (s : string) : string :=
  match s with
  | EmptyString => EmptyString
  | String c s' => String (lower_ascii c) (ascii_lower s')
  end.

(** A text of ASCII characters without carriage return: bytes that every
    ASCII-compatible encoding decodes to themselves and that the translation
    of line ends leaves alone. *)
Fixpoint ascii_text (s : string) : bool :=
  match s with
  | EmptyString => true
  | String c s' =>
      ((nat_of_ascii c <? 128)%nat && negb (Ascii.eqb c "013") && ascii_text s')%bool
  end.

(** Line ends as a file opened in text mode gives them: CR LF and CR become
    LF. *)
Fixpoint universal_newlines (s : string) : string :=
  match s with
  | EmptyString => EmptyString
  | String c s' =>
      if Ascii.eqb c "013" then
        match s' with
        | String "010" s'' => String "010" (universal_newlines s'')
        | _ => String "010" (universal_newlines s')
        end
      else String c (universal_newlines s')
  end.

(** Whether every byte is below 128. *)
Fixpoint seven_bit (s : string) : bool :=
  match s with
  | EmptyString => true
  | String c s' => ((nat_of_ascii c <? 128)%nat && seven_bit s')%bool
  end.

(** The text layer of a locale whose encoding is ASCII: bytes above 127 do
    not decode. *)
Definition decode_ascii (bytes : string) : option string :=
  if seven_bit bytes then Some (universal_newlines bytes) else None.

(** [count_sub p t]: the number of positions of [t] at which [p] occurs. *)
Fixpoint count_sub (p t : string) : nat :=
  ((if String.prefix p t then 1 else 0) +
   match t with
   | EmptyString => 0
   | String _ t' => count_sub p t'
   end)%nat.

(** Python's [p in t]. *)
Definition contains (p t : string) : bool := negb (count_sub p t =? 0)%nat.

(** [has_char c s]: the byte [c] occurs in [s]. *)
Fixpoint has_char (c : ascii) (s : string) : bool :=
  match s with
  | EmptyString => false
  | String x s' => (Ascii.eqb x c || has_char c s')%bool
  end.

(** ** Paths *)

Record Path := mkPath { absolute : bool; parts : list string }.

(** [str(p)]. *)
Definition str (p : Path) : string :=
  if absolute p then "/" +:+ join "/" (parts p)
  else match parts p with
       | [] => "."
       | _ => join "/" (parts p)
       end.

(** [p.parent]: the last component is dropped; the anchor and the empty
    relative path are their own parents. *)
Definition parent (p : Path) : Path :=
  mkPath (absolute p) (removelast (parts p)).

(** [p / name] for a single component [name]. *)
Definition div (p : Path) (name : string) : Path :=
  mkPath (absolute p) (parts p ++ [name]).

Notation "p // n" := (div p n) (at level 40, left associativity).

(** What [str (p // n)] puts in front of [n]. *)
Definition dir_prefix (l : list string) : string :=
  match l with
  | [] => ""
  | _ => join "/" l +:+ "/"
  end.

Definition str_prefix (p : Path) : string :=
  if absolute p then "/" +:+ dir_prefix (parts p) else dir_prefix (parts p).

(** [nchar c s]: how many times the byte [c] occurs in [s]. *)
Fixpoint nchar (c : ascii) (s : string) : nat :=
  match s with
  | EmptyString => 0%nat
  | String x s' => ((if Ascii.eqb x c then 1 else 0) + nchar c s')%nat
  end.

(** [compat u m]: one of the two texts begins with the other, which is what
    an occurrence of [u] at the head of a text that begins with [m] needs. *)
Definition compat (u m : string) : bool :=
  (String.prefix u m || String.prefix m u)%bool.

(** [no_start u t]: no occurrence of [u] can begin inside [t], whatever
    follows [t]. *)
Fixpoint no_start (u t : string) : bool :=
  match t with
  | EmptyString => true
  | String _ t' => (negb (compat u t) && no_start u t')%bool
  end.

(** A component that holds both a double quote and a line feed. *)
Definition mixed (s : string) : bool := (has_char "034" s && has_char "010" s)%bool.

(** A path none of whose components is mixed and that is not the empty
    relative path ".". *)
Definition unmixed_root (p : Path) : bool :=
  forallb (fun s => negb (mixed s)) (parts p) &&
  (absolute p || match parts p with [] => false | _ => true end).

(** ** The world *)

Inductive node :=
| Dir
| File (content : string).

Record World := mkWorld {
  fs : gmap string node;          (* the file system, by path text *)
  clock : Z;                      (* time.time(), in ticks *)
  spawned : list string           (* the commands run so far, oldest first *)
}.

Inductive exn :=
| FileNotFoundError (p : string)
| FileExistsError (p : string)
| NotADirectoryError (p : string)
| IsADirectoryError (p : string)
| OSError (msg : string)
| UnicodeDecodeError
| CalledProcessError (returncode : Z)
| SystemExit (code : Z).

(** [SystemExit] derives from [BaseException] only; all the others derive
    from [Exception]. *)
Definition is_Exception (e : exn) : bool :=
  match e with
  | SystemExit _ => false
  | _ => true
  end.

(** ** Operations: value or exception, printed lines, resulting world *)

Record Res (A : Type) := mkRes {
  value : exn + A;
  printed : list string;
  world : World
}.
Arguments mkRes {A} _ _ _.
Arguments value {A} _.
Arguments printed {A} _.
Arguments world {A} _.

Definition M (A : Type) : Type := World -> Res A.

Definition ret {A} (a : A) : M A := fun w => mkRes (inr a) [] w.

Definition raise {A} (e : exn) : M A := fun w => mkRes (inl e) [] w.

Definition bind {A B} (m : M A) (k : A -> M B) : M B := fun w =>
  match m w with
  | mkRes (inl e) out w' => mkRes (inl e) out w'
  | mkRes (inr a) out w' =>
      match k a w' with
      | mkRes v out' w'' => mkRes v (out ++ out') w''
      end
  end.

(** [try: m except <handles>: h e]. *)
Definition try_except {A} (m : M A) (handles : exn -> bool) (h : exn -> M A) : M A :=
  fun w =>
    match m w with
    | mkRes (inl e) out w' =>
        if handles e then
          match h e w' with
          | mkRes v out' w'' => mkRes v (out ++ out') w''
          end
        else mkRes (inl e) out w'
    | mkRes (inr a) out w' => mkRes (inr a) out w'
    end.

Notation "x <- m ;; k" := (bind m (fun x => k))
  (at level 100, m at next level, right associativity).
Notation "m ;;; k" := (bind m (fun _ => k))
  (at level 100, right associativity).

(** [print(s)]. *)
Definition print (s : string) : M unit := fun w => mkRes (inr tt) [s] w.

(** [time.time()]. *)
Definition time_time : M Z := fun w => mkRes (inr (clock w)) [] w.

Definition get_fs : M (gmap string node) := fun w => mkRes (inr (fs w)) [] w.

(** The world [w] with the file system [f]. *)
Definition with_fs (w : World) (f : gmap string node) : World :=
  mkWorld f (clock w) (spawned w).

Definition put_fs (f : gmap string node) : M unit := fun w =>
  mkRes (inr tt) [] (with_fs w f).

(** The world after a child started by [command] has run for [elapsed]
    ticks and left the file system [f]. *)
Definition after_child (w : World) (command : string) (f : gmap string node)
           (elapsed : Z) : World :=
  mkWorld f (clock w + elapsed) (spawned w ++ [command]).

(** [raises_only_Exception m]: whatever [m] raises derives from
    [Exception]; it never raises [SystemExit]. *)
Definition raises_only_Exception {A} (m : M A) : Prop :=
  forall w e, value (m w) = inl e -> is_Exception e = true.

(** ** File-system primitives *)

Definition is_dir (f : gmap string node) (p : Path) : bool :=
  match f !! str p with
  | Some Dir => true
  | _ => false
  end.

(** [p.exists()]. *)
Definition exists_ (p : Path) : M bool :=
  f <- get_fs ;;
  ret (match f !! str p with Some _ => true | None => false end).

(** The directories on the way to [p], from the first one below the anchor
    down to the parent of [p].  The anchor itself (the root directory, or
    the current directory of a relative path) is there in every file
    system, so the walk does not look it up. *)
Definition ancestors (p : Path) : list Path :=
  map (fun k => mkPath (absolute p) (firstn k (parts p)))
      (seq 1 (length (parts p) - 1)).

(** The error of a walk down [dirs] that does not arrive: the first one,
    from the top, that is not a directory decides.  A regular file in the
    way gives ENOTDIR, a missing directory gives ENOENT. *)
Fixpoint walk_error (f : gmap string node) (dirs : list Path) (p : string) : exn :=
  match dirs with
  | [] => FileNotFoundError p
  | d :: dirs' =>
      match f !! str d with
      | Some Dir => walk_error f dirs' p
      | Some (File _) => NotADirectoryError p
      | None => FileNotFoundError p
      end
  end.

(** What the directories above [p] do to an operation on [p]: nothing when
    the parent is a directory, else the error of the walk. *)
Definition check_parent (f : gmap string node) (p : Path) : option exn :=
  match f !! str (parent p) with
  | Some Dir => None
  | _ => Some (walk_error f (ancestors p) (str p))
  end.

(** [p.mkdir(exist_ok=True)]: [os.mkdir] fails when the parent is missing or
    is not a directory, and when the path exists; pathlib swallows the last
    failure when the path is a directory. *)
Definition mkdir_exist_ok (p : Path) : M unit :=
  f <- get_fs ;;
  match check_parent f p with
  | Some e => raise e
  | None =>
      match f !! str p with
      | None => put_fs (<[str p := Dir]> f)
      | Some Dir => ret tt
      | Some (File _) => raise (FileExistsError (str p))
      end
  end.

(** [open(p, 'w')]: the file is created or truncated. *)
Definition open_w (p : Path) : M unit :=
  f <- get_fs ;;
  match check_parent f p with
  | Some e => raise e
  | None =>
      match f !! str p with
      | Some Dir => raise (IsADirectoryError (str p))
      | _ => put_fs (<[str p := File ""]> f)
      end
  end.

(** The file system after [text] is written through a handle opened on [p]:
    the text follows what the file holds. *)
Definition appended (f : gmap string node) (p : Path) (text : string)
  : gmap string node :=
  match f !! str p with
  | Some (File old) => <[str p := File (old +:+ text)]> f
  | _ => <[str p := File text]> f
  end.

Definition write (p : Path) (text : string) : M unit :=
  f <- get_fs ;; put_fs (appended f p text).

(** [open(p, 'r')] followed by [f.read()]: the bytes of the file go through
    the text layer [decode], and bytes that do not decode raise
    [UnicodeDecodeError]. *)
Definition read_text (decode : string -> option string) (p : Path) : M string :=
  f <- get_fs ;;
  match f !! str p with
  | None => raise (FileNotFoundError (str p))
  | Some Dir => raise (IsADirectoryError (str p))
  | Some (File bytes) =>
      match decode bytes with
      | Some text => ret text
      | None => raise UnicodeDecodeError
      end
  end.

(** [for x in l: body x]. *)
Fixpoint for_each {A} (l : list A) (body : A -> M unit) : M unit :=
  match l with
  | [] => ret tt
  | x :: l' => body x ;;; for_each l' body
  end.

(** ** Child processes *)

Inductive SpawnResult :=
| SpawnError (msg : string)
| Exited (returncode : Z) (output : string) (fs' : gmap string node) (elapsed : Z).

(** ** class VixenSynthesisFlow *)

Record VixenSynthesisFlow := mkFlow {
  project_root : Path;
  config_file : Path;
  results_dir : Path;
  reports_dir : Path;
  logs_dir : Path
}.

(** The attributes set by [__init__] (source lines 19 to 23) for a project
    root. *)
Definition layout (project_root : Path) : VixenSynthesisFlow :=
  mkFlow project_root
         (project_root // "config" // "openroad_config.tcl")
         (project_root // "results")
         (project_root // "reports")
         (project_root // "logs").

(** [__init__]; [file] is [Path(__file__)]. *)
Definition init (file : Path) : M VixenSynthesisFlow :=
  let self := layout (parent (parent file)) in
  (* Create directories *)
  for_each [results_dir self; reports_dir self; logs_dir self]
           (fun dir_path => mkdir_exist_ok dir_path) ;;;
  ret self.

(** The part of the control script that follows the directory settings:
    source lines 87 to 204. *)
Definition tcl_flow_steps : list string := [
    "";
    "# Read liberty files";
    "foreach lib_file $LIB_FILES {";
    "    if {[file exists $lib_file]} {";
    "        read_liberty $lib_file";
    "    } else {";
    "        puts " +:+ q "Warning: Liberty file $lib_file not found";
    "    }";
    "}";
    "";
    "# Read LEF files  ";
    "foreach lef_file $LEF_FILES {";
    "    if {[file exists $lef_file]} {";
    "        read_lef $lef_file";
    "    } else {";
    "        puts " +:+ q "Warning: LEF file $lef_file not found";
    "    }";
    "}";
    "";
    "# Read Verilog files";
    "foreach verilog_file $VERILOG_FILES {";
    "    if {[file exists $verilog_file]} {";
    "        read_verilog $verilog_file";
    "    } else {";
    "        puts " +:+ q "Error: Verilog file $verilog_file not found";
    "        exit 1";
    "    }";
    "}";
    "";
    "# Link design";
    "link_design $TOP_MODULE";
    "";
    "# Read constraints";
    "if {[file exists $SDC_FILE]} {";
    "    read_sdc $SDC_FILE";
    "} else {";
    "    puts " +:+ q "Warning: SDC file $SDC_FILE not found, using default constraints";
    "    create_clock -name clk -period $CLOCK_PERIOD [get_ports clk]";
    "}";
    "";
    "# Initialize floorplan";
    "initialize_floorplan " +:+ bsl;
    "    -die_area $DIE_AREA " +:+ bsl;
    "    -core_area $CORE_AREA " +:+ bsl;
    "    -site unithd";
    "";
    "# Place macros (if any)";
    "if {$ENABLE_MACRO_PLACEMENT} {";
    "    # Auto place any memory macros";
    "    auto_macro_placement";
    "}";
    "";
    "# Power planning";
    "add_global_connection -net $POWER_NETS -pin_pattern VDD -power";
    "add_global_connection -net $GROUND_NETS -pin_pattern VSS -ground";
    "";
    "# Global placement";
    "global_placement -density $PLACE_DENSITY";
    "puts " +:+ q "Global placement completed";
    "";
    "# Resize and buffer insertion";
    "estimate_parasitics -placement";
    "repair_design";
    "puts " +:+ q "Initial repair completed";
    "";
    "# Detailed placement";
    "detailed_placement";
    "puts " +:+ q "Detailed placement completed";
    "";
    "# Clock tree synthesis";
    "clock_tree_synthesis " +:+ bsl;
    "    -buf_list $CTS_BUF_CELL " +:+ bsl;
    "    -root_buf $CTS_BUF_CELL";
    "puts " +:+ q "Clock tree synthesis completed";
    "";
    "# Post-CTS optimization";
    "estimate_parasitics -placement";
    "repair_design";
    "puts " +:+ q "Post-CTS repair completed";
    "";
    "# Global routing";
    "set_routing_layers -signal $MIN_ROUTE_LAYER:$MAX_ROUTE_LAYER";
    "global_route";
    "puts " +:+ q "Global routing completed";
    "";
    "# Detailed routing";
    "detailed_route";
    "puts " +:+ q "Detailed routing completed";
    "";
    "# Final parasitic extraction and optimization";
    "estimate_parasitics -placement";
    "repair_design -max_wire_length 500";
    "puts " +:+ q "Final repair completed";
    "";
    "# Fill insertion";
    "filler_placement sky130_fd_sc_hd__fill_*";
    "puts " +:+ q "Filler placement completed";
    "";
    "# Generate reports";
    "report_checks -path_delay min_max -fields input_pin,net,fanout " +:+ bsl;
    "    > $reports_dir/timing_report.txt";
    "report_power > $reports_dir/power_report.txt";
    "report_design_area > $reports_dir/area_report.txt";
    "";
    "# Write results";
    "write_def $results_dir/vixen_dio_pro_final.def";
    "write_verilog $results_dir/vixen_dio_pro_final.v";
    "write_sdf $results_dir/vixen_dio_pro_final.sdf";
    "write_spef $results_dir/vixen_dio_pro_final.spef";
    "";
    "# GDS generation (if LEF/GDS libraries are available)";
    "if {[info exists GDS_LIBS]} {";
    "    write_gds $results_dir/vixen_dio_pro_final.gds";
    "    puts " +:+ q "GDS file generated successfully";
    "}";
    "";
    "puts " +:+ q "Vixen Dio Pro synthesis flow completed successfully!";
    "exit 0"
  ].

(** The f-string of [generate_tcl_script]: source lines 75 to 205. *)
Definition tcl_script (self : VixenSynthesisFlow) : string :=
  unlines ([
    "";
    "# =============================================================================";
    "# Vixen Dio Pro - OpenROAD Synthesis Script";
    "# =============================================================================";
    "";
    "# Load configuration";
    "source " +:+ str (config_file self);
    "";
    "# Set up directories";
    "set results_dir " +:+ q (str (results_dir self));
    "set reports_dir " +:+ q (str (reports_dir self));
    "set logs_dir " +:+ q (str (logs_dir self))
  ] ++ tcl_flow_steps).

(** The fixed text of the f-string around its four replacement fields. *)
Definition tcl_seg0 : string :=
  unlines [
    "";
    "# =============================================================================";
    "# Vixen Dio Pro - OpenROAD Synthesis Script";
    "# =============================================================================";
    "";
    "# Load configuration"
  ] +:+ "source".

Definition tcl_seg1 : string :=
  unlines [""; "# Set up directories"] +:+ "set results_dir ".

Definition tcl_seg2 : string := nl +:+ "set reports_dir ".

Definition tcl_seg3 : string := nl +:+ "set logs_dir ".

Definition tcl_seg4 : string := nl +:+ unlines tcl_flow_steps.

(** The fixed text of the f-string from the last slash of one path to the
    start of the next path: from the name of the configuration file to the
    quote that opens the results directory, and so on. *)
Definition tcl_gap1 : string := "openroad_config.tcl" +:+ nl +:+ tcl_seg1 +:+ dq.
Definition tcl_gap2 : string := "results" +:+ dq +:+ tcl_seg2 +:+ dq.
Definition tcl_gap3 : string := "reports" +:+ dq +:+ tcl_seg3 +:+ dq.

(** A project root that is not the empty relative path "." and whose text
    holds none of these three texts. *)
Definition clear_root (p : Path) : bool :=
  forallb (fun g => negb (contains g (str p))) [tcl_gap1; tcl_gap2; tcl_gap3] &&
  (absolute p || match parts p with [] => false | _ => true end).

(** The script is five fixed texts around four copies of the text of the
    project root: the head up to "source ", the middles from the name of one
    path to the start of the next, and the tail from the name of the logs
    directory. *)
Definition tcl_head : string := tcl_seg0 +:+ " ".
Definition tcl_mid1 : string := "/config/" +:+ tcl_gap1.
Definition tcl_mid2 : string := "/" +:+ tcl_gap2.
Definition tcl_mid3 : string := "/" +:+ tcl_gap3.
Definition tcl_tail : string := "/logs" +:+ dq +:+ tcl_seg4.

(** The text [h] of a root holds none of the three gaps. *)
Definition gap_free (h : string) : Prop :=
  count_sub tcl_gap1 h = 0%nat /\ count_sub tcl_gap2 h = 0%nat /\
  count_sub tcl_gap3 h = 0%nat.

(** [begins_in h a u b pre x y]: in an occurrence of [h +:+ u] behind [a]
    and in front of [b], the name [u] begins inside the fixed text [x] that
    stands behind [pre] and in front of [y]. *)
Definition begins_in (h a u b pre x y : string) : Prop :=
  exists a1 m, a +:+ h = pre +:+ a1 /\ x = a1 +:+ m /\ m <> "" /\ u +:+ b = m +:+ y.

(** [generate_tcl_script]. *)
Definition generate_tcl_script (self : VixenSynthesisFlow) : M Path :=
  let script_path := project_root self // "scripts" // "vixen_synthesis.tcl" in
  open_w script_path ;;;
  write script_path (tcl_script self) ;;;
  ret script_path.

(** The title line of the summary. *)
Definition summary_title : string := "VIXEN DIO PRO SYNTHESIS SUMMARY".

(** The three timing lines of the summary. *)
Definition msg_timing_generated : string := "  - Timing report generated".
Definition msg_timing_check : string := "  - Check timing report for detailed analysis".
Definition msg_timing_unparsed : string :=
  "  - Timing report available but could not be parsed".

(** Which of the three timing lines a list of printed lines holds. *)
Definition timing_lines (out : list string) : bool * bool * bool :=
  (existsb (String.eqb msg_timing_generated) out,
   existsb (String.eqb msg_timing_check) out,
   existsb (String.eqb msg_timing_unparsed) out).

(** [print_summary]; [decode] is the text layer of [open] and [str_lower] is
    [str.lower]. *)
Definition print_summary (decode : string -> option string)
           (str_lower : string -> string) (self : VixenSynthesisFlow) : M unit :=
  print (bsl +:+ "n" +:+ str_repeat "=" 70) ;;;
  print summary_title ;;;
  print (str_repeat "=" 70) ;;;
  (* Try to extract basic information from reports *)
  let timing_report := reports_dir self // "timing_report.txt" in
  let area_report := reports_dir self // "area_report.txt" in
  let power_report := reports_dir self // "power_report.txt" in
  b <- exists_ timing_report ;;
  (if b : bool then
     print "Timing Analysis:" ;;;
     try_except
       (content <- read_text decode timing_report ;;
        if contains "slack" (str_lower content)
        then print msg_timing_generated
        else print msg_timing_check)
       is_Exception
       (fun _ => print msg_timing_unparsed)
   else ret tt) ;;;
  b <- exists_ area_report ;;
  (if b : bool then
     print "Area Analysis:" ;;;
     print "  - Area report generated"
   else ret tt) ;;;
  b <- exists_ power_report ;;
  (if b : bool then
     print "Power Analysis:" ;;;
     print "  - Power report generated"
   else ret tt) ;;;
  print (bsl +:+ "nOutput files available in:") ;;;
  print ("  - Results: " +:+ str (results_dir self)) ;;;
  print ("  - Reports: " +:+ str (reports_dir self)) ;;;
  print ("  - Logs: " +:+ str (logs_dir self)) ;;;
  print (bsl +:+ "nKey files:") ;;;
  print ("  - Final netlist: " +:+ str (results_dir self) +:+ "/vixen_dio_pro_final.v") ;;;
  print ("  - Layout (DEF): " +:+ str (results_dir self) +:+ "/vixen_dio_pro_final.def") ;;;
  print ("  - Timing (SDF): " +:+ str (results_dir self) +:+ "/vixen_dio_pro_final.sdf") ;;;
  print ("  - Parasitics: " +:+ str (results_dir self) +:+ "/vixen_dio_pro_final.spef") ;;;
  let gds_file := results_dir self // "vixen_dio_pro_final.gds" in
  b <- exists_ gds_file ;;
  (if b : bool then print ("  - Layout (GDS): " +:+ str gds_file) else ret tt) ;;;
  print (bsl +:+ "nProcessor specifications achieved:") ;;;
  print "  - Architecture: x86-64 CISC processor" ;;;
  print "  - Cores: 1 physical core, 2 HT threads" ;;;
  print "  - Pipeline: 20 stages" ;;;
  print "  - Issue width: 3-way superscalar" ;;;
  print "  - Process: 130nm" ;;;
  print "  - Target frequency: 3.4 GHz" ;;;
  print ("  - Die area target: ~240 mm" +:+
         String "195" (String "130" (String "194" (String "178" "")))).

Definition is_CalledProcessError (e : exn) : bool :=
  match e with
  | CalledProcessError _ => true
  | _ => false
  end.

Definition returncode_of (e : exn) : Z :=
  match e with
  | CalledProcessError rc => rc
  | _ => 0
  end.

(** Truth value of the [log_file] argument: [None] and the empty text are
    false. *)
Definition truthy (log_file : option string) : option string :=
  match log_file with
  | Some (String c s) => Some (String c s)
  | _ => None
  end.

Section Flow.

(** The text layer of [open] and [str.lower]. *)
Variable decode : string -> option string.
Variable str_lower : string -> string.

(** The shell: command line, working directory and file system to what
    the child does. *)
Variable spawn : string -> string -> gmap string node -> SpawnResult.

(** [f"{d:.2f}"] of a duration in ticks. *)
Variable fmt_2f : Z -> string.

(** [subprocess.run(command, shell=True, cwd=cwd, stdout=..., check=True)]:
    a child that cannot be started raises [OSError]; the
    text of a child that ran goes to [stdout] when one is given; with
    [check=True] a nonzero exit status raises [CalledProcessError]. *)
Definition subprocess_run (command : string) (cwd : Path)
           (stdout : option Path) : M Z := fun w =>
  match spawn command (str cwd) (fs w) with
  | SpawnError msg => mkRes (inl (OSError msg)) [] w
  | Exited rc output fs' elapsed =>
      (match stdout with
       | Some f => write f output
       | None => ret tt
       end ;;;
       if rc =? 0 then ret rc else raise (CalledProcessError rc))
        (after_child w command fs' elapsed)
  end.

(** [run_command]. *)
Definition run_command (self : VixenSynthesisFlow) (command : string)
           (log_file : option string) (cwd : option Path) : M bool :=
  let cwd := match cwd with None => project_root self | Some c => c end in
  print ("Running: " +:+ command) ;;;
  match truthy log_file with
  | Some log_file =>
      let log_path := logs_dir self // log_file in
      open_w log_path ;;;
      try_except
        (returncode <- subprocess_run command cwd (Some log_path) ;;
         ret (returncode =? 0))
        is_CalledProcessError
        (fun e =>
           print ("Error: Command failed with return code "
                  +:+ pretty (returncode_of e)) ;;;
           ret false)
  | None =>
      try_except
        (returncode <- subprocess_run command cwd None ;;
         ret (returncode =? 0))
        is_CalledProcessError
        (fun e =>
           print ("Error: Command failed with return code "
                  +:+ pretty (returncode_of e)) ;;;
           ret false)
  end.

(** The required tools. *)
Definition tools : list string := ["openroad"; "yosys"; "klayout"].

(** The loop of [check_prerequisites] over the tools still to probe. *)
Fixpoint probe_tools (self : VixenSynthesisFlow) (todo missing_tools : list string)
  : M (list string) :=
  match todo with
  | [] => ret missing_tools
  | tool :: todo' =>
      found <- run_command self ("which " +:+ tool) None None ;;
      probe_tools self todo'
                  (if found : bool then missing_tools else missing_tools ++ [tool])
  end.

(** [check_prerequisites]. *)
Definition check_prerequisites (self : VixenSynthesisFlow) : M bool :=
  missing_tools <- probe_tools self tools [] ;;
  match missing_tools with
  | _ :: _ =>
      print ("Error: Missing required tools: " +:+ join ", " missing_tools) ;;;
      print "Please install OpenROAD and required dependencies" ;;;
      ret false
  | [] => ret true
  end.

(** [run_synthesis]. *)
Definition run_synthesis (self : VixenSynthesisFlow) : M bool :=
  print (str_repeat "=" 70) ;;;
  print "Starting Vixen Dio Pro Synthesis Flow" ;;;
  print (str_repeat "=" 70) ;;;
  start_time <- time_time ;;
  (* Generate TCL script *)
  tcl_script <- generate_tcl_script self ;;
  (* Run OpenROAD *)
  let command := "openroad -no_splash " +:+ str tcl_script in
  success <- run_command self command (Some "synthesis.log") None ;;
  end_time <- time_time ;;
  let duration := end_time - start_time in
  (if success : bool then
     print (bsl +:+ "nSynthesis completed successfully in "
            +:+ fmt_2f duration +:+ " seconds!") ;;;
     print_summary decode str_lower self
   else
     print (bsl +:+ "nSynthesis failed after " +:+ fmt_2f duration +:+ " seconds.") ;;;
     print ("Check log file: " +:+ str (logs_dir self) +:+ "/synthesis.log")) ;;;
  ret success.

(** [sys.exit(code)]. *)
Definition sys_exit {A} (code : Z) : M A := raise (SystemExit code).

(** The usage text of [main]. *)
Definition usage : list string := [
  "Vixen Dio Pro Synthesis Flow";
  "Usage: python3 vixen_synthesis.py";
  bsl +:+ "nThis script runs the complete OpenROAD synthesis flow for";
  "the Vixen Dio Pro processor targeting 130nm process technology."
].

(** [len(sys.argv) > 1 and sys.argv[1] in ['-h', '--help']]. *)
Definition asks_help (argv : list string) : bool :=
  match argv with
  | _ :: a :: _ => bool_decide (a = "-h" \/ a = "--help")
  | _ => false
  end.

(** [main]; [file] is [Path(__file__)] and [argv] is [sys.argv]. *)
Definition main (file : Path) (argv : list string) : M unit :=
  if asks_help argv then
    for_each usage print
  else
    flow <- init file ;;
    (* Check prerequisites *)
    ok <- check_prerequisites flow ;;
    (if ok : bool then ret tt else sys_exit 1) ;;;
    (* Run synthesis *)
    success <- run_synthesis flow ;;
    (if success : bool then ret tt else sys_exit 1).

(** The exit status of the interpreter after [main]: 0 when it returns,
    the code of [sys.exit], and 1 for any other uncaught exception. *)
Definition exit_status (r : Res unit) : Z :=
  match value r with
  | inr _ => 0
  | inl (SystemExit code) => code
  | inl _ => 1
  end.

End Flow.

(** [which_probes spawn found self f tool]: in the file system [f] the probe
    of [tool] can be started, leaves the file system alone and exits with
    status 0 exactly when the tool resolves on the search path, which is
    what [found tool] says. *)
Definition which_probes
           (spawn : string -> string -> gmap string node -> SpawnResult)
           (found : string -> bool)
           (self : VixenSynthesisFlow) (f : gmap string node)
           (tool : string) : Prop :=
  exists rc output elapsed,
    spawn ("which " +:+ tool) (str (project_root self)) f
    = Exited rc output f elapsed /\ (rc =? 0) = found tool.

(** ** Sample worlds *)

(** The script at /proj/scripts/vixen_synthesis.py. *)
Definition file0 : Path := mkPath true ["proj"; "scripts"; "vixen_synthesis.py"].

Definition root0 : Path := mkPath true ["proj"].

(** A fresh checkout: the project root and its scripts directory. *)
Definition fs0 : gmap string node :=
  <["/proj/scripts" := Dir]> (<["/proj" := Dir]> (<["/" := Dir]> ∅)).

Definition w0 : World := mkWorld fs0 0 [].

(** A project root without its scripts directory. *)
Definition fs_bare : gmap string node :=
  <["/proj" := Dir]> (<["/" := Dir]> ∅).

Definition w_bare : World := mkWorld fs_bare 0 [].

(** The script run by a relative name from its own directory: the project
    root is the empty relative path. *)
Definition file_rel : Path := mkPath false ["vixen_synthesis.py"].

Definition root_rel : Path := mkPath false [].

Definition w_rel : World := mkWorld (<["." := Dir]> ∅) 0 [].


(** A project root with a space, a double quote and a line feed in its
    components. *)
Definition root_spaced : Path :=
  mkPath true ["home"; "me"; "My Projects"; "vixen" +:+ dq +:+ "pro" +:+ nl].

(** A shell in which every command exits with status 0 and one in which
    none can be started. *)
Definition sh_ok : string -> string -> gmap string node -> SpawnResult :=
  fun _ _ f => Exited 0 "" f 1.

Definition sh_fail : string -> string -> gmap string node -> SpawnResult :=
  fun _ _ _ => SpawnError "fork: Resource temporarily unavailable".

(** A shell in which yosys alone does not resolve, and the matching search
    path. *)
Definition sh_no_yosys : string -> string -> gmap string node -> SpawnResult :=
  fun command _ f =>
    if String.eqb command "which yosys" then Exited 1 "" f 1 else Exited 0 "" f 1.

Definition found_no_yosys (tool : string) : bool := negb (String.eqb tool "yosys").

(** A shell whose openroad writes a timing report with a slack line, writes
    two lines on its output and exits with the given status. *)
Definition sh_openroad (rc : Z) : string -> string -> gmap string node -> SpawnResult :=
  fun command _ f =>
    if String.prefix "openroad" command
    then Exited rc "OpenROAD" (<["/proj/reports/timing_report.txt" := File "slack = 50ps"]> f) 5
    else Exited 0 "" f 1.

Definition fmt0 (d : Z) : string := "0.00".

(** The project after construction. *)
Definition fs_ready : gmap string node :=
  <["/proj/logs" := Dir]> (<["/proj/reports" := Dir]> (<["/proj/results" := Dir]> fs0)).


(** The same with a log of an earlier run. *)
Definition w_rerun : World :=
  mkWorld (<["/proj/logs/synthesis.log" := File "old run"]> fs_ready) 0 [].


(** An empty file system: the project root itself is missing. *)
Definition w_empty : World := mkWorld ∅ 0 [].

(** A project root in which reports is a regular file. *)
Definition w_reports_file : World :=
  mkWorld (<["/proj/reports" := File "notes"]> fs_bare) 0 [].

(** A checkout with a directory where the control script should be. *)
Definition w_script_dir : World :=
  mkWorld (<["/proj/scripts/vixen_synthesis.tcl" := Dir]> fs0) 0 [].

(** A checkout with a control script left by an earlier run. *)
Definition w_old_script : World :=
  mkWorld (<["/proj/scripts/vixen_synthesis.tcl" := File "exit 1"]> fs0) 7 ["ls"].

(** A shell in which the probe of yosys cannot be started. *)
Definition sh_yosys_unstartable : string -> string -> gmap string node -> SpawnResult :=
  fun command _ f =>
    if String.eqb command "which yosys" then SpawnError "Cannot allocate memory"
    else Exited 0 "" f 1.

Definition found_all (tool : string) : bool := true.

(** A finished run with an area report, a GDS file and a timing report that
    writes slack in capitals. *)
Definition w_reports : World :=
  mkWorld (<["/proj/results/vixen_dio_pro_final.gds" := File "gds"]>
             (<["/proj/reports/area_report.txt" := File "area"]>
                (<["/proj/reports/timing_report.txt" := File "Worst SLACK: 3"]>
                   fs_ready))) 0 [].

(** * Properties *)

(** ** Text lemmas *)

Lemma app_cons_s (x : ascii) (a b : string) : String x a +:+ b = String x (a +:+ b).
Proof. reflexivity. Qed.

Lemma app_nil_l_s (b : string) : "" +:+ b = b.
Proof. reflexivity. Qed.

Lemma app_assoc_s (a b c : string) : (a +:+ b) +:+ c = a +:+ (b +:+ c).
Proof.
  induction a as [|x a IH]; [reflexivity|].
  rewrite !app_cons_s. now rewrite IH.
Qed.

Lemma app_nil_r_s (a : string) : a +:+ "" = a.
Proof.
  induction a as [|x a IH]; [reflexivity|].
  rewrite app_cons_s. now rewrite IH.
Qed.

Lemma length_app_s (a b : string) :
  String.length (a +:+ b) = (String.length a + String.length b)%nat.
Proof.
  induction a as [|x a IH]; [reflexivity|].
  rewrite app_cons_s. simpl. now rewrite IH.
Qed.

Lemma app_inv_head_s (a b c : string) : a +:+ b = a +:+ c -> b = c.
Proof.
  induction a as [|x a IH]; [intros H; exact H|].
  rewrite !app_cons_s. intros H. injection H as H. auto.
Qed.

(** ** Path lemmas *)

Lemma join_snoc (l : list string) (n : string) :
  join "/" (l ++ [n]) = dir_prefix l +:+ n.
Proof.
  induction l as [|x l IH]; [reflexivity|].
  destruct l as [|y l].
  - change (join "/" ([x] ++ [n])) with (x +:+ "/" +:+ n).
    change (dir_prefix [x]) with (x +:+ "/").
    symmetry. apply app_assoc_s.
  - change (join "/" ((x :: y :: l) ++ [n]))
      with (x +:+ "/" +:+ join "/" ((y :: l) ++ [n])).
    rewrite IH.
    change (dir_prefix (x :: y :: l))
      with ((x +:+ "/" +:+ join "/" (y :: l)) +:+ "/").
    change (dir_prefix (y :: l)) with (join "/" (y :: l) +:+ "/").
    now rewrite !app_assoc_s.
Qed.

Lemma str_div (p : Path) (n : string) : str (p // n) = str_prefix p +:+ n.
Proof.
  destruct p as [a l]. unfold str, str_prefix, div. simpl absolute. simpl parts.
  rewrite join_snoc. destruct a.
  - now rewrite app_assoc_s.
  - destruct l; reflexivity.
Qed.

Lemma str_div_inj (p : Path) (n m : string) : str (p // n) = str (p // m) -> n = m.
Proof. rewrite !str_div. apply app_inv_head_s. Qed.

Lemma parent_div (p : Path) (n : string) : parent (p // n) = p.
Proof.
  destruct p as [a l]. unfold parent, div. simpl.
  now rewrite removelast_last.
Qed.

Lemma length_str_div (p : Path) (n : string) :
  (String.length (str p) <= String.length (str_prefix p) + 1)%nat.
Proof.
  destruct p as [a l]. unfold str, str_prefix. simpl absolute. simpl parts.
  destruct a, l as [|x l]; simpl String.length; try lia;
    unfold dir_prefix; rewrite ?length_app_s; simpl; lia.
Qed.

(** A path and an entry below it with a name of two bytes or more have
    different texts. *)
Lemma str_div_ne (p : Path) (n : string) :
  (2 <= String.length n)%nat -> str (p // n) <> str p.
Proof.
  intros Hn E. apply (f_equal String.length) in E.
  rewrite str_div, length_app_s in E.
  pose proof (length_str_div p n). lia.
Qed.

(** ** The file-system primitives *)

(** A walk that fails raises one of two errors. *)
Lemma walk_error_cases (f : gmap string node) (dirs : list Path) (p : string) :
  walk_error f dirs p = FileNotFoundError p \/
  walk_error f dirs p = NotADirectoryError p.
Proof.
  induction dirs as [|d dirs IH]; [now left|].
  cbn [walk_error]. destruct (f !! str d) as [[|t]|]; auto.
Qed.

Lemma walk_error_is_Exception (f : gmap string node) (dirs : list Path) (p : string) :
  is_Exception (walk_error f dirs p) = true.
Proof. destruct (walk_error_cases f dirs p) as [-> | ->]; reflexivity. Qed.

Lemma with_fs_id (w : World) : with_fs w (fs w) = w.
Proof. now destruct w. Qed.

Lemma fs_with_fs (w : World) (f : gmap string node) : fs (with_fs w f) = f.
Proof. reflexivity. Qed.

Lemma with_fs_with_fs (w : World) (f g : gmap string node) :
  with_fs (with_fs w f) g = with_fs w g.
Proof. reflexivity. Qed.

Lemma mkdir_exist_ok_ok (p : Path) (w : World) :
  fs w !! str (parent p) = Some Dir ->
  (forall t, fs w !! str p <> Some (File t)) ->
  mkdir_exist_ok p w = mkRes (inr tt) [] (with_fs w (<[str p := Dir]> (fs w))).
Proof.
  intros Hpar Hnf.
  unfold mkdir_exist_ok, bind, get_fs, check_parent. cbv beta iota.
  rewrite Hpar.
  destruct (fs w !! str p) as [[|t]|] eqn:E.
  - unfold ret. now rewrite (insert_id _ _ _ E), with_fs_id.
  - now destruct (Hnf t).
  - reflexivity.
Qed.

(** ** Construction *)

(** The file system after the three output directories of [root] are made. *)
Lemma init_ok (file : Path) (w : World) :
  let root := parent (parent file) in
  fs w !! str root = Some Dir ->
  (forall n t, In n ["results"; "reports"; "logs"] ->
               fs w !! str (root // n) <> Some (File t)) ->
  init file w =
  mkRes (inr (layout root)) []
        (with_fs w (<[str (root // "logs") := Dir]>
                      (<[str (root // "reports") := Dir]>
                         (<[str (root // "results") := Dir]> (fs w))))).
Proof.
  intros root Hroot Hnf.
  assert (Hne : forall n m, n <> m -> str (root // n) <> str (root // m)).
  { intros n m Hnm E. apply Hnm. exact (str_div_inj _ _ _ E). }
  assert (Hup : forall n, (2 <= String.length n)%nat -> str (root // n) <> str root).
  { intros n Hn. now apply str_div_ne. }
  pose proof (mkdir_exist_ok_ok (root // "results") w) as H1.
  rewrite parent_div in H1.
  specialize (H1 Hroot (fun t => Hnf "results" t ltac:(simpl; auto))).
  pose proof (mkdir_exist_ok_ok (root // "reports")
                (with_fs w (<[str (root // "results") := Dir]> (fs w)))) as H2.
  rewrite parent_div, fs_with_fs, with_fs_with_fs in H2.
  rewrite !lookup_insert_ne in H2
    by (apply Hup || apply Hne; (simpl; lia) || discriminate).
  specialize (H2 Hroot (fun t => Hnf "reports" t ltac:(simpl; auto))).
  pose proof (mkdir_exist_ok_ok (root // "logs")
                (with_fs w (<[str (root // "reports") := Dir]>
                              (<[str (root // "results") := Dir]> (fs w))))) as H3.
  rewrite parent_div, fs_with_fs, with_fs_with_fs in H3.
  rewrite !lookup_insert_ne in H3
    by (apply Hup || apply Hne; (simpl; lia) || discriminate).
  specialize (H3 Hroot (fun t => Hnf "logs" t ltac:(simpl; auto))).
  unfold init. fold root. cbn [layout results_dir reports_dir logs_dir for_each].
  unfold bind.
  rewrite H1. cbv beta iota. rewrite H2. cbv beta iota. rewrite H3.
  reflexivity.
Qed.

Lemma mkdir_exist_ok_raises (p : Path) (w : World) :
  fs w !! str (parent p) <> Some Dir \/ (exists t, fs w !! str p = Some (File t)) ->
  exists e, mkdir_exist_ok p w = mkRes (inl e) [] w.
Proof.
  intros H.
  unfold mkdir_exist_ok, bind, get_fs, check_parent. cbv beta iota.
  destruct (fs w !! str (parent p)) as [[|t]|] eqn:Epar;
    try (eexists; reflexivity).
  destruct H as [H | [t H]]; [congruence|].
  rewrite H. eexists; reflexivity.
Qed.

(** Either a directory can be made at [p], or the parent is not a directory
    or a regular file is in the way. *)
Lemma mkdir_exist_ok_cases (p : Path) (w : World) :
  (fs w !! str (parent p) = Some Dir /\ (forall t, fs w !! str p <> Some (File t)))
  \/ (fs w !! str (parent p) <> Some Dir \/ exists t, fs w !! str p = Some (File t)).
Proof.
  destruct (fs w !! str (parent p)) as [[|t]|]; try (right; left; congruence).
  destruct (fs w !! str p) as [[|t]|]; try (left; split; congruence).
  right; right; eauto.
Qed.

(** Construction succeeds only over a root that is a directory and with
    none of the three names taken by a regular file. *)
Lemma init_inv (file : Path) (w : World) (self : VixenSynthesisFlow)
      (out : list string) (w' : World) :
  let root := parent (parent file) in
  init file w = mkRes (inr self) out w' ->
  fs w !! str root = Some Dir /\
  (forall n t, In n ["results"; "reports"; "logs"] ->
               fs w !! str (root // n) <> Some (File t)).
Proof.
  intros root Hinit.
  assert (Hne : forall n m, n <> m -> str (root // n) <> str (root // m)).
  { intros n m Hnm E. apply Hnm. exact (str_div_inj _ _ _ E). }
  assert (Hup : forall n, (2 <= String.length n)%nat -> str (root // n) <> str root).
  { intros n Hn. now apply str_div_ne. }
  unfold init in Hinit. fold root in Hinit.
  cbn [layout results_dir reports_dir logs_dir for_each] in Hinit.
  unfold bind in Hinit.
  destruct (mkdir_exist_ok_cases (root // "results") w) as [[Hr Hf1] | Hbad].
  2:{ destruct (mkdir_exist_ok_raises _ _ Hbad) as [e He].
      rewrite He in Hinit. discriminate. }
  rewrite (mkdir_exist_ok_ok _ _ Hr Hf1) in Hinit. cbv beta iota in Hinit.
  rewrite parent_div in Hr.
  destruct (mkdir_exist_ok_cases (root // "reports")
              (with_fs w (<[str (root // "results") := Dir]> (fs w))))
    as [[Hr2 Hf2] | Hbad].
  2:{ destruct (mkdir_exist_ok_raises _ _ Hbad) as [e He].
      rewrite He in Hinit. discriminate. }
  rewrite (mkdir_exist_ok_ok _ _ Hr2 Hf2) in Hinit. cbv beta iota in Hinit.
  rewrite fs_with_fs in Hf2.
  destruct (mkdir_exist_ok_cases (root // "logs")
              (with_fs (with_fs w (<[str (root // "results") := Dir]> (fs w)))
                 (<[str (root // "reports") := Dir]>
                    (fs (with_fs w (<[str (root // "results") := Dir]> (fs w)))))))
    as [[Hr3 Hf3] | Hbad].
  2:{ destruct (mkdir_exist_ok_raises _ _ Hbad) as [e He].
      rewrite He in Hinit. discriminate. }
  rewrite !fs_with_fs in Hf3.
  split; [assumption|].
  intros n t [<- | [<- | [<- | []]]].
  - apply Hf1.
  - specialize (Hf2 t). rewrite lookup_insert_ne in Hf2 by (apply Hne; discriminate).
    exact Hf2.
  - specialize (Hf3 t). rewrite !lookup_insert_ne in Hf3 by (apply Hne; discriminate).
    exact Hf3.
Qed.

Lemma init_keeps_other (root : Path) (f : gmap string node) (k : string) :
  k <> str (root // "results") -> k <> str (root // "reports") ->
  k <> str (root // "logs") ->
  <[str (root // "logs") := Dir]>
    (<[str (root // "reports") := Dir]>
       (<[str (root // "results") := Dir]> f)) !! k = f !! k.
Proof. intros H1 H2 H3. now rewrite !lookup_insert_ne by congruence. Qed.

(** *** C3 *)

(** C3, as stated, at a fresh checkout: construction succeeds and leaves no
    config directory behind, so not all four directories exist. *)
Lemma config_dir_is_not_created :
  value (init file0 w0) = inr (layout root0) /\
  fs (world (init file0 w0)) !! str (parent (config_file (layout root0))) = None /\
  is_dir (fs (world (init file0 w0))) (parent (config_file (layout root0))) = false.
Proof. vm_compute. auto. Qed.

(** C3, amended: over a project root that is a directory, with none of the
    names results, reports and logs taken by a regular file, construction
    computes the configuration-file path and the three output directory
    paths, and leaves results, reports and logs as directories; every other
    path, config among them, is as it was before: config is not created. *)
Theorem init_creates_output_dirs (file : Path) (w : World) :
  let root := parent (parent file) in
  fs w !! str root = Some Dir ->
  (forall n t, In n ["results"; "reports"; "logs"] ->
               fs w !! str (root // n) <> Some (File t)) ->
  exists w',
    init file w = mkRes (inr (layout root)) [] w' /\
    config_file (layout root) = root // "config" // "openroad_config.tcl" /\
    is_dir (fs w') (results_dir (layout root)) = true /\
    is_dir (fs w') (reports_dir (layout root)) = true /\
    is_dir (fs w') (logs_dir (layout root)) = true /\
    (forall k, k <> str (root // "results") -> k <> str (root // "reports") ->
               k <> str (root // "logs") -> fs w' !! k = fs w !! k) /\
    fs w' !! str (root // "config") = fs w !! str (root // "config").
Proof.
  intros root Hroot Hnf.
  assert (Hne : forall n m, n <> m -> str (root // n) <> str (root // m)).
  { intros n m Hnm E. apply Hnm. exact (str_div_inj _ _ _ E). }
  eexists. split; [apply init_ok; assumption|].
  rewrite fs_with_fs. cbn [layout config_file results_dir reports_dir logs_dir].
  unfold is_dir.
  repeat split.
  - rewrite !lookup_insert_ne by (apply Hne; discriminate).
    now rewrite lookup_insert_eq.
  - rewrite lookup_insert_ne by (apply Hne; discriminate).
    now rewrite lookup_insert_eq.
  - now rewrite lookup_insert_eq.
  - intros k H1 H2 H3. now apply init_keeps_other.
  - apply init_keeps_other; apply Hne; discriminate.
Qed.

Lemma init_creates_output_dirs_witness :
  exists w',
    init file0 w0 = mkRes (inr (layout root0)) [] w' /\
    config_file (layout root0) = root0 // "config" // "openroad_config.tcl" /\
    is_dir (fs w') (results_dir (layout root0)) = true /\
    is_dir (fs w') (reports_dir (layout root0)) = true /\
    is_dir (fs w') (logs_dir (layout root0)) = true /\
    (forall k, k <> str (root0 // "results") -> k <> str (root0 // "reports") ->
               k <> str (root0 // "logs") -> fs w' !! k = fs w0 !! k) /\
    fs w' !! str (root0 // "config") = fs w0 !! str (root0 // "config").
Proof.
  apply (init_creates_output_dirs file0 w0).
  - reflexivity.
  - intros n t [<- | [<- | [<- | []]]]; vm_compute; discriminate.
Defined.

(** *** C8 *)

(** Over directories that are already there, construction changes nothing. *)
Lemma init_noop (file : Path) (w : World) :
  let root := parent (parent file) in
  fs w !! str root = Some Dir ->
  fs w !! str (root // "results") = Some Dir ->
  fs w !! str (root // "reports") = Some Dir ->
  fs w !! str (root // "logs") = Some Dir ->
  init file w = mkRes (inr (layout root)) [] w.
Proof.
  intros root Hroot H1 H2 H3.
  rewrite init_ok; fold root; [| assumption |].
  - rewrite (insert_id (fs w) _ _ H1), (insert_id (fs w) _ _ H2),
      (insert_id (fs w) _ _ H3).
    now rewrite with_fs_id.
  - intros n t [<- | [<- | [<- | []]]]; congruence.
Qed.

(** A successful construction leaves a world in which constructing again
    raises nothing, prints nothing and changes nothing. *)
Lemma init_twice (file : Path) (w w' : World) (self : VixenSynthesisFlow)
      (out : list string) :
  init file w = mkRes (inr self) out w' ->
  init file w' = mkRes (inr self) [] w'.
Proof.
  intros Hinit.
  destruct (init_inv _ _ _ _ _ Hinit) as [Hroot Hnf].
  set (root := parent (parent file)) in *.
  assert (Hne : forall n m, n <> m -> str (root // n) <> str (root // m)).
  { intros n m Hnm E. apply Hnm. exact (str_div_inj _ _ _ E). }
  rewrite (init_ok _ _ Hroot Hnf) in Hinit. fold root in Hinit.
  injection Hinit as <- <- <-.
  apply init_noop; fold root; rewrite fs_with_fs.
  - rewrite !lookup_insert_ne by (apply str_div_ne; simpl; lia). assumption.
  - rewrite !lookup_insert_ne by (apply Hne; discriminate).
    now rewrite lookup_insert_eq.
  - rewrite lookup_insert_ne by (apply Hne; discriminate).
    now rewrite lookup_insert_eq.
  - now rewrite lookup_insert_eq.
Qed.

(** C8: over a project root (a directory) that has none of results, reports
    and logs, construction raises nothing and makes exactly these three
    directories: the file system afterwards is the one before with the three
    entries added, and nothing else of the world changes.  Constructing
    again in the world so obtained raises nothing and leaves it as it is. *)
Theorem init_idempotent (file : Path) (w : World) :
  let root := parent (parent file) in
  fs w !! str root = Some Dir ->
  fs w !! str (root // "results") = None ->
  fs w !! str (root // "reports") = None ->
  fs w !! str (root // "logs") = None ->
  let w' := with_fs w (<[str (root // "logs") := Dir]>
                         (<[str (root // "reports") := Dir]>
                            (<[str (root // "results") := Dir]> (fs w)))) in
  init file w = mkRes (inr (layout root)) [] w' /\
  dom (fs w') = dom (fs w) ∪ {[ str (root // "results");
                                 str (root // "reports");
                                 str (root // "logs") ]} /\
  clock w' = clock w /\ spawned w' = spawned w /\
  init file w' = mkRes (inr (layout root)) [] w'.
Proof.
  intros root Hroot H1 H2 H3 w'.
  assert (Hinit : init file w = mkRes (inr (layout root)) [] w').
  { apply init_ok; [assumption|]. fold root.
    intros n t [<- | [<- | [<- | []]]]; congruence. }
  split; [exact Hinit|].
  split.
  { subst w'. rewrite fs_with_fs, !dom_insert_L.
    apply set_eq. intros k.
    rewrite !elem_of_union, !elem_of_singleton. tauto. }
  split; [reflexivity|]. split; [reflexivity|].
  exact (init_twice _ _ _ _ _ Hinit).
Qed.

Lemma init_idempotent_witness :
  let w' := with_fs w0 (<["/proj/logs" := Dir]>
                          (<["/proj/reports" := Dir]>
                             (<["/proj/results" := Dir]> (fs w0)))) in
  init file0 w0 = mkRes (inr (layout root0)) [] w' /\
  dom (fs w') = dom (fs w0) ∪ {[ "/proj/results"; "/proj/reports"; "/proj/logs" ]} /\
  clock w' = clock w0 /\ spawned w' = spawned w0 /\
  init file0 w' = mkRes (inr (layout root0)) [] w'.
Proof.
  apply (init_idempotent file0 w0); reflexivity.
Defined.

(** *** C10 *)

Lemma open_w_raises (p : Path) (w : World) :
  fs w !! str (parent p) <> Some Dir ->
  exists e, open_w p w = mkRes (inl e) [] w /\
            (e = FileNotFoundError (str p) \/ e = NotADirectoryError (str p)).
Proof.
  intros H. unfold open_w, bind, get_fs, check_parent. cbv beta iota.
  destruct (fs w !! str (parent p)) as [[|t]|]; [congruence | |];
    eexists; (split; [reflexivity|]); apply walk_error_cases.
Qed.

(** Without a scripts directory the script cannot be written. *)
Lemma generate_tcl_script_raises (self : VixenSynthesisFlow) (w : World) :
  is_dir (fs w) (project_root self // "scripts") = false ->
  exists e, generate_tcl_script self w = mkRes (inl e) [] w /\
            (e = FileNotFoundError (str (project_root self // "scripts" // "vixen_synthesis.tcl")) \/
             e = NotADirectoryError (str (project_root self // "scripts" // "vixen_synthesis.tcl"))).
Proof.
  intros H.
  destruct (open_w_raises (project_root self // "scripts" // "vixen_synthesis.tcl") w)
    as [e [He Hk]].
  { rewrite parent_div. unfold is_dir in H.
    destruct (fs w !! str (project_root self // "scripts")) as [[|t]|];
      congruence. }
  exists e. split; [|exact Hk].
  unfold generate_tcl_script, bind. now rewrite He.
Qed.

(** An exception of script generation leaves [run_synthesis] as it is. *)
Lemma run_synthesis_generate_raises
      (decode : string -> option string) (str_lower : string -> string)
      (spawn : string -> string -> gmap string node -> SpawnResult)
      (fmt_2f : Z -> string) (self : VixenSynthesisFlow) (w : World)
      (e : exn) (out : list string) (w' : World) :
  generate_tcl_script self w = mkRes (inl e) out w' ->
  run_synthesis decode str_lower spawn fmt_2f self w =
  mkRes (inl e)
        ([str_repeat "=" 70; "Starting Vixen Dio Pro Synthesis Flow";
          str_repeat "=" 70] ++ out) w'.
Proof.
  intros H. unfold run_synthesis, bind, print, time_time. cbv beta iota.
  now rewrite H.
Qed.

(** C10, amended: over a project root that is a directory, with none of
    results, reports and logs taken by a regular file and with no scripts
    directory, construction succeeds and makes no scripts directory, and
    then [generate_tcl_script] raises when it opens its output file; nothing
    in [run_synthesis] catches the exception, whatever the child process
    would do. *)
Theorem missing_scripts_dir_raises
        (decode : string -> option string) (str_lower : string -> string)
        (spawn : string -> string -> gmap string node -> SpawnResult)
        (fmt_2f : Z -> string) (file : Path) (w : World) :
  let root := parent (parent file) in
  fs w !! str root = Some Dir ->
  (forall n t, In n ["results"; "reports"; "logs"] ->
               fs w !! str (root // n) <> Some (File t)) ->
  is_dir (fs w) (root // "scripts") = false ->
  exists self w' e,
    init file w = mkRes (inr self) [] w' /\
    is_dir (fs w') (root // "scripts") = false /\
    generate_tcl_script self w' = mkRes (inl e) [] w' /\
    (e = FileNotFoundError (str (root // "scripts" // "vixen_synthesis.tcl")) \/
     e = NotADirectoryError (str (root // "scripts" // "vixen_synthesis.tcl"))) /\
    value (run_synthesis decode str_lower spawn fmt_2f self w') = inl e /\
    world (run_synthesis decode str_lower spawn fmt_2f self w') = w'.
Proof.
  intros root Hroot Hnf Hscr.
  assert (Hne : forall n m, n <> m -> str (root // n) <> str (root // m)).
  { intros n m Hnm E. apply Hnm. exact (str_div_inj _ _ _ E). }
  pose proof (init_ok file w Hroot Hnf) as Hinit. fold root in Hinit.
  set (w' := with_fs w _) in Hinit.
  assert (Hscr' : is_dir (fs w') (root // "scripts") = false).
  { unfold is_dir, w'. rewrite fs_with_fs.
    rewrite init_keeps_other by (apply Hne; discriminate). exact Hscr. }
  destruct (generate_tcl_script_raises (layout root) w' Hscr') as [e [He Hk]].
  exists (layout root), w', e.
  rewrite (run_synthesis_generate_raises decode str_lower spawn fmt_2f _ _ _ _ _ He).
  repeat split; auto.
Qed.

Lemma missing_scripts_dir_raises_witness :
  exists self w' e,
    init file0 w_bare = mkRes (inr self) [] w' /\
    is_dir (fs w') (root0 // "scripts") = false /\
    generate_tcl_script self w' = mkRes (inl e) [] w' /\
    (e = FileNotFoundError (str (root0 // "scripts" // "vixen_synthesis.tcl")) \/
     e = NotADirectoryError (str (root0 // "scripts" // "vixen_synthesis.tcl"))) /\
    value (run_synthesis decode_ascii ascii_lower (fun _ _ f => Exited 0 "" f 1) (fun _ => "0.00") self w')
    = inl e /\
    world (run_synthesis decode_ascii ascii_lower (fun _ _ f => Exited 0 "" f 1) (fun _ => "0.00") self w')
    = w'.
Proof.
  apply (missing_scripts_dir_raises
           decode_ascii ascii_lower (fun _ _ f => Exited 0 "" f 1) (fun _ => "0.00") file0 w_bare).
  - reflexivity.
  - intros n t [<- | [<- | [<- | []]]]; vm_compute; discriminate.
  - reflexivity.
Defined.

(** C10, as stated, fails: the absence of scripts does not make
    construction succeed.  In a project root without scripts in which
    reports is a regular file, construction raises FileExistsError; where
    the project root itself is missing, it raises FileNotFoundError.  In
    both cases no flow object is made, so [generate_tcl_script] is never
    reached. *)
Lemma construction_can_fail_without_scripts :
  fs w_reports_file !! str (root0 // "scripts") = None /\
  value (init file0 w_reports_file) = inl (FileExistsError "/proj/reports") /\
  fs w_empty !! str (root0 // "scripts") = None /\
  value (init file0 w_empty) = inl (FileNotFoundError "/proj/results").
Proof. repeat split; vm_compute; reflexivity. Qed.

(** ** Occurrences of a text in another *)

Lemma prefix_app (p b : string) : String.prefix p (p +:+ b) = true.
Proof.
  induction p as [|x p IH]; [now destruct b|].
  rewrite app_cons_s. simpl. destruct (ascii_dec x x); [exact IH | congruence].
Qed.

Lemma prefix_inv (p t : string) :
  String.prefix p t = true -> exists b, t = p +:+ b.
Proof.
  revert t. induction p as [|x p IH]; intros t H.
  - exists t. reflexivity.
  - destruct t as [|y t]; simpl in H; [discriminate|].
    destruct (ascii_dec x y) as [->|]; [|discriminate].
    destruct (IH _ H) as [b ->]. exists b. reflexivity.
Qed.

Lemma prefix_length (p t : string) :
  String.prefix p t = true -> (String.length p <= String.length t)%nat.
Proof.
  intros H. destruct (prefix_inv _ _ H) as [b ->].
  rewrite length_app_s. lia.
Qed.

Lemma count_sub_cons (p : string) (x : ascii) (t : string) :
  count_sub p (String x t) =
  ((if String.prefix p (String x t) then 1 else 0) + count_sub p t)%nat.
Proof. reflexivity. Qed.

(** A counted occurrence is an occurrence. *)
Lemma count_sub_occurs (p t : string) :
  count_sub p t <> 0%nat -> exists a b, t = a +:+ p +:+ b.
Proof.
  induction t as [|x t IH]; intros H.
  - change (count_sub p "")
      with ((if String.prefix p "" then 1 else 0) + 0)%nat in H.
    destruct (String.prefix p "") eqn:E; [|lia].
    destruct (prefix_inv _ _ E) as [b Hb]. exists "", b. exact Hb.
  - rewrite count_sub_cons in H.
    destruct (String.prefix p (String x t)) eqn:E.
    + destruct (prefix_inv _ _ E) as [b Hb]. exists "", b. exact Hb.
    + destruct IH as [a [b ->]]; [lia|].
      exists (String x a), b. reflexivity.
Qed.

(** An occurrence is counted. *)
Lemma occurs_count_sub (p a b : string) : count_sub p (a +:+ p +:+ b) <> 0%nat.
Proof.
  induction a as [|x a IH].
  - rewrite app_nil_l_s.
    assert (H : forall t, String.prefix p t = true -> count_sub p t <> 0%nat).
    { intros t Ht. destruct t as [|y t].
      - change (count_sub p "")
          with ((if String.prefix p "" then 1 else 0) + 0)%nat.
        rewrite Ht. lia.
      - rewrite count_sub_cons, Ht. lia. }
    apply H, prefix_app.
  - rewrite app_cons_s, count_sub_cons. lia.
Qed.

(** A text that is too short holds no occurrence. *)
Lemma count_sub_short (p t : string) :
  (String.length t < String.length p)%nat -> count_sub p t = 0%nat.
Proof.
  intros H. destruct (count_sub p t) eqn:E; [reflexivity|].
  destruct (count_sub_occurs p t) as [a [b Hab]]; [lia|].
  apply (f_equal String.length) in Hab. rewrite !length_app_s in Hab. lia.
Qed.

Lemma count_sub_self (p : string) : count_sub p p = 1%nat.
Proof.
  destruct p as [|x p]; [reflexivity|].
  rewrite count_sub_cons.
  pose proof (prefix_app (String x p) "") as H. rewrite app_nil_r_s in H.
  rewrite H, count_sub_short; [reflexivity | simpl; lia].
Qed.

(** A text that does not hold [u] holds no text that holds [u]. *)
Lemma count_sub_around (u a c t : string) :
  count_sub u t = 0%nat -> count_sub (a +:+ u +:+ c) t = 0%nat.
Proof.
  intros H. destruct (count_sub (a +:+ u +:+ c) t) eqn:E; [reflexivity|].
  destruct (count_sub_occurs (a +:+ u +:+ c) t) as [x [y Hxy]]; [lia|].
  exfalso. apply (occurs_count_sub u (x +:+ a) (c +:+ y)).
  rewrite <- H. f_equal. rewrite Hxy. now rewrite !app_assoc_s.
Qed.

Lemma count_sub_after (u a t : string) :
  count_sub u t = 0%nat -> count_sub (a +:+ u) t = 0%nat.
Proof.
  intros H. rewrite <- (app_nil_r_s u). now apply count_sub_around.
Qed.

(** Two texts that are equal as concatenations, split at the shorter head. *)
Lemma app_eq_split (a b c d : string) :
  a +:+ b = c +:+ d -> (String.length c <= String.length a)%nat ->
  exists m, a = c +:+ m /\ d = m +:+ b.
Proof.
  revert a. induction c as [|x c IH]; intros a H Hlen.
  - exists a. rewrite app_nil_l_s in H. split; [reflexivity | now symmetry].
  - destruct a as [|y a]; [simpl in Hlen; lia|].
    rewrite !app_cons_s in H. injection H as -> H.
    destruct (IH a H) as [m [-> ->]]; [simpl in Hlen; lia|].
    exists m. split; reflexivity.
Qed.

(** Behind a common head, an occurrence of the whole is an occurrence of
    the tail. *)
Lemma count_sub_same_head (h u v : string) :
  count_sub u v = 0%nat -> count_sub (h +:+ u) (h +:+ v) = 0%nat.
Proof.
  intros H. destruct (count_sub (h +:+ u) (h +:+ v)) eqn:E; [reflexivity|].
  destruct (count_sub_occurs (h +:+ u) (h +:+ v)) as [x [y Hxy]]; [lia|].
  exfalso.
  assert (Hxy' : (x +:+ h) +:+ (u +:+ y) = h +:+ v).
  { rewrite Hxy. now rewrite !app_assoc_s. }
  destruct (app_eq_split _ _ _ _ Hxy') as [m [_ Hv]].
  { rewrite length_app_s. lia. }
  apply (occurs_count_sub u m y). now rewrite <- Hv.
Qed.

Lemma has_char_app (c : ascii) (a b : string) :
  has_char c (a +:+ b) = (has_char c a || has_char c b)%bool.
Proof.
  induction a as [|x a IH]; [reflexivity|].
  rewrite app_cons_s. simpl. rewrite IH. now rewrite orb_assoc.
Qed.

Lemma prefix_sep (c : ascii) (p a b : string) :
  has_char c p = false ->
  String.prefix p (a +:+ String c b) = String.prefix p a.
Proof.
  revert p. induction a as [|y a IH]; intros p Hp.
  - rewrite app_nil_l_s. destruct p as [|x p]; [reflexivity|].
    simpl in Hp. apply orb_false_elim in Hp as [Hx _].
    apply Ascii.eqb_neq in Hx.
    simpl. destruct (ascii_dec x c); [congruence | reflexivity].
  - rewrite app_cons_s. destruct p as [|x p]; [reflexivity|].
    simpl in Hp. apply orb_false_elim in Hp as [_ Hp].
    simpl. destruct (ascii_dec x y); [now apply IH | reflexivity].
Qed.

(** No occurrence of [p] reaches over a byte that [p] does not hold. *)
Lemma count_sub_sep (c : ascii) (p a b : string) :
  has_char c p = false -> p <> "" ->
  count_sub p (a +:+ String c "" +:+ b) = (count_sub p a + count_sub p b)%nat.
Proof.
  intros Hp Hne. change (String c "" +:+ b) with (String c b).
  induction a as [|y a IH].
  - rewrite app_nil_l_s, count_sub_cons.
    pose proof (prefix_sep c p "" b Hp) as H. rewrite app_nil_l_s in H.
    rewrite H. destruct p; [congruence | reflexivity].
  - rewrite app_cons_s, !count_sub_cons, IH.
    pose proof (prefix_sep c p (String y a) b Hp) as H.
    rewrite app_cons_s in H. rewrite H. lia.
Qed.

(** ** The control script *)

(** The script is the fixed text with the four paths put in, each at one
    place. *)
Lemma tcl_script_split (self : VixenSynthesisFlow) :
  tcl_script self =
  tcl_seg0 +:+ " " +:+ str (config_file self) +:+ nl +:+
  tcl_seg1 +:+ dq +:+ str (results_dir self) +:+ dq +:+
  tcl_seg2 +:+ dq +:+ str (reports_dir self) +:+ dq +:+
  tcl_seg3 +:+ dq +:+ str (logs_dir self) +:+ dq +:+
  tcl_seg4.
Proof.
  unfold tcl_script, tcl_seg0, tcl_seg1, tcl_seg2, tcl_seg3, tcl_seg4, q.
  cbn [app unlines]. rewrite !app_assoc_s. reflexivity.
Qed.

Lemma str_prefix_div (p : Path) (n : string) :
  str_prefix (p // n) = str_prefix p +:+ n +:+ "/".
Proof.
  destruct p as [a l]. unfold str_prefix, div. simpl absolute. simpl parts.
  assert (H : dir_prefix (l ++ [n]) = dir_prefix l +:+ n +:+ "/").
  { unfold dir_prefix at 1. destruct (l ++ [n])%list eqn:E.
    - destruct l; discriminate.
    - rewrite <- E, join_snoc. now rewrite app_assoc_s. }
  rewrite H. destruct a; [now rewrite !app_assoc_s | reflexivity].
Qed.

(** The texts of the four paths of a flow, behind the common head. *)
Lemma layout_strs (root : Path) (h : string) :
  str_prefix root = h +:+ "/" ->
  str (config_file (layout root)) = h +:+ "/config/openroad_config.tcl" /\
  str (results_dir (layout root)) = h +:+ "/results" /\
  str (reports_dir (layout root)) = h +:+ "/reports" /\
  str (logs_dir (layout root)) = h +:+ "/logs".
Proof.
  intros Hh. cbn [layout config_file results_dir reports_dir logs_dir].
  rewrite !str_div, str_prefix_div, Hh, !app_assoc_s. repeat split.
Qed.

(** X20: every one of the four paths (the configuration file and the
    results, reports and logs directories) occurs at least once in the
    script, whatever the flow is. *)
Lemma tcl_script_holds_paths (self : VixenSynthesisFlow) :
  count_sub (str (config_file self)) (tcl_script self) <> 0%nat /\
  count_sub (str (results_dir self)) (tcl_script self) <> 0%nat /\
  count_sub (str (reports_dir self)) (tcl_script self) <> 0%nat /\
  count_sub (str (logs_dir self)) (tcl_script self) <> 0%nat.
Proof.
  rewrite tcl_script_split.
  generalize (str (config_file self)), (str (results_dir self)),
    (str (reports_dir self)), (str (logs_dir self)). intros c r p l.
  assert (H : forall u a b t, t = a +:+ u +:+ b -> count_sub u t <> 0%nat).
  { intros u a b t ->. apply occurs_count_sub. }
  repeat split.
  - eapply (H c (tcl_seg0 +:+ " ")). now rewrite !app_assoc_s.
  - eapply (H r (tcl_seg0 +:+ " " +:+ c +:+ nl +:+ tcl_seg1 +:+ dq)).
    now rewrite !app_assoc_s.
  - eapply (H p (tcl_seg0 +:+ " " +:+ c +:+ nl +:+ tcl_seg1 +:+ dq +:+ r +:+ dq
                 +:+ tcl_seg2 +:+ dq)).
    now rewrite !app_assoc_s.
  - eapply (H l (tcl_seg0 +:+ " " +:+ c +:+ nl +:+ tcl_seg1 +:+ dq +:+ r +:+ dq
                 +:+ tcl_seg2 +:+ dq +:+ p +:+ dq +:+ tcl_seg3 +:+ dq)).
    now rewrite !app_assoc_s.
Qed.

(** *** C9 *)

(** C9, as stated, fails for an absolute project root with one component
    that holds a double quote and a line feed: the text of the results
    directory occurs twice in the script.  It fails as well for the script
    run by a relative name from its own directory (where [__file__] is that
    relative name): the project root is "." and the results directory is
    "results", a text that the script holds eight times; the reports
    directory occurs six times and the logs directory twice. *)
Lemma paths_repeat_in_script :
  (let root := mkPath true ["results" +:+ dq +:+ nl +:+ "set reports_dir " +:+ dq] in
   count_sub (str (results_dir (layout root))) (tcl_script (layout root)) = 2%nat) /\
  init file_rel w_rel = mkRes (inr (layout root_rel)) [] (world (init file_rel w_rel)) /\
  str (results_dir (layout root_rel)) = "results" /\
  count_sub (str (results_dir (layout root_rel))) (tcl_script (layout root_rel)) = 8%nat /\
  count_sub (str (reports_dir (layout root_rel))) (tcl_script (layout root_rel)) = 6%nat /\
  count_sub (str (logs_dir (layout root_rel))) (tcl_script (layout root_rel)) = 2%nat.
Proof. vm_compute. repeat split. Qed.

(** **** Texts that are equal as concatenations *)

Lemma app_eq_cases (x y a r : string) :
  x +:+ y = a +:+ r ->
  (exists m, x = a +:+ m /\ m <> "" /\ r = m +:+ y) \/
  (exists a1, a = x +:+ a1 /\ y = a1 +:+ r).
Proof.
  revert a. induction x as [|c x IH]; intros a H.
  - right. exists a. rewrite app_nil_l_s in H. now split.
  - destruct a as [|c' a].
    + left. exists (String c x). rewrite app_nil_l_s in H.
      repeat split; [discriminate | now symmetry].
    + rewrite !app_cons_s in H. injection H as -> H.
      destruct (IH a H) as [[m [-> [Hm ->]]] | [a1 [-> ->]]].
      * left. exists m. repeat split. exact Hm.
      * right. exists a1. split; reflexivity.
Qed.

Lemma app_inv_tail_s (a b c : string) : a +:+ c = b +:+ c -> a = b.
Proof.
  revert b. induction a as [|x a IH]; intros b H.
  - destruct b as [|y b]; [reflexivity|]. exfalso.
    apply (f_equal String.length) in H. rewrite app_nil_l_s, length_app_s in H.
    simpl in H. lia.
  - destruct b as [|y b].
    + exfalso. apply (f_equal String.length) in H.
      rewrite app_nil_l_s, length_app_s in H. simpl in H. lia.
    + rewrite !app_cons_s in H. injection H as -> H. f_equal. now apply IH.
Qed.

Lemma nchar_app (c : ascii) (a b : string) :
  nchar c (a +:+ b) = (nchar c a + nchar c b)%nat.
Proof.
  induction a as [|x a IH]; [reflexivity|].
  rewrite app_cons_s. cbn [nchar]. rewrite IH. lia.
Qed.

(** **** Where an occurrence can begin *)

Lemma compat_app (u b m y : string) : u +:+ b = m +:+ y -> compat u m = true.
Proof.
  revert m. induction u as [|c u IH]; intros m H.
  - unfold compat. now destruct m.
  - destruct m as [|c' m].
    + reflexivity.
    + rewrite !app_cons_s in H. injection H as -> H.
      specialize (IH m H). unfold compat in *. cbn.
      destruct (ascii_dec c' c'); [exact IH | congruence].
Qed.

Lemma no_start_spec (u t a m : string) :
  no_start u t = true -> t = a +:+ m -> m <> "" -> compat u m = false.
Proof.
  revert t. induction a as [|c a IH]; intros t Hn -> Hm.
  - rewrite app_nil_l_s in Hn. destruct m as [|c m]; [congruence|].
    cbn [no_start] in Hn. apply andb_true_iff in Hn as [Hn _].
    now apply negb_true_iff in Hn.
  - rewrite app_cons_s in Hn. cbn [no_start] in Hn.
    apply andb_true_iff in Hn as [_ Hn]. now apply (IH _ Hn).
Qed.

(** An occurrence of [u] does not begin inside [t] when [no_start u t]. *)
Lemma no_start_inside (u b t a m y : string) :
  no_start u t = true -> t = a +:+ m -> m <> "" -> u +:+ b = m +:+ y -> False.
Proof.
  intros Hn Ht Hm He.
  pose proof (no_start_spec u t a m Hn Ht Hm) as H1.
  pose proof (compat_app u b m y He) as H2. congruence.
Qed.

(** The same for a text [t] that begins with a slash: the occurrence
    begins at the head of [t]. *)
Lemma no_start_after_head (u b t' a m y : string) (c : ascii) :
  no_start u t' = true -> String c t' = a +:+ m -> m <> "" ->
  u +:+ b = m +:+ y -> a = "".
Proof.
  intros Hn Ht Hm He. destruct a as [|c' a]; [reflexivity|]. exfalso.
  rewrite app_cons_s in Ht. injection Ht as _ Ht.
  exact (no_start_inside u b t' a m y Hn Ht Hm He).
Qed.

(** A single occurrence is counted once. *)
Lemma count_sub_unique (p : string) (a0 b0 t : string) :
  t = a0 +:+ p +:+ b0 ->
  (forall a b, t = a +:+ p +:+ b -> a = a0) ->
  count_sub p t = 1%nat.
Proof.
  revert t. induction a0 as [|x a0 IH]; intros t Ht Hu.
  - rewrite app_nil_l_s in Ht.
    assert (Hp : String.prefix p t = true) by (rewrite Ht; apply prefix_app).
    destruct t as [|y t].
    + change (count_sub p "") with ((if String.prefix p "" then 1 else 0) + 0)%nat.
      now rewrite Hp.
    + rewrite count_sub_cons, Hp.
      destruct (count_sub p t) eqn:E; [reflexivity|]. exfalso.
      destruct (count_sub_occurs p t) as [a [b Hab]]; [lia|].
      specialize (Hu (String y a) b). rewrite app_cons_s, <- Hab in Hu.
      specialize (Hu eq_refl). discriminate.
  - rewrite app_cons_s in Ht. subst t. rewrite count_sub_cons.
    destruct (String.prefix p (String x (a0 +:+ p +:+ b0))) eqn:E.
    + exfalso. destruct (prefix_inv _ _ E) as [b Hb].
      specialize (Hu "" b). rewrite app_nil_l_s in Hu. specialize (Hu Hb).
      discriminate.
    + rewrite (IH (a0 +:+ p +:+ b0) eq_refl); [reflexivity|].
      intros a b Hab. specialize (Hu (String x a) b).
      rewrite app_cons_s, <- Hab in Hu. specialize (Hu eq_refl).
      now injection Hu.
Qed.

(** **** An occurrence that ends inside a copy of the root *)

(** When the name [m] that follows the root in a path begins inside a copy
    [h = tau m] of the root that stands behind [pre], the occurrence of the
    root in front of it begins inside [pre], with as many slashes up to the
    end of [pre] as [m] holds. *)
Lemma root_before_field (h pre tau m a : string) :
  a +:+ h = pre +:+ tau -> h = tau +:+ m ->
  exists sigma, pre = a +:+ sigma /\ h = sigma +:+ tau /\
                nchar "/" sigma = nchar "/" m.
Proof.
  intros Ha Hh.
  assert (Hlen : (String.length a <= String.length pre)%nat).
  { pose proof (f_equal String.length Ha) as L.
    pose proof (f_equal String.length Hh) as L2.
    rewrite !length_app_s in L. rewrite length_app_s in L2. lia. }
  destruct (app_eq_split pre tau a h (eq_sym Ha) Hlen) as [sigma [Hp Hs]].
  exists sigma. repeat split; [exact Hp | exact Hs |].
  pose proof (f_equal (nchar "/") Hs) as N1.
  pose proof (f_equal (nchar "/") Hh) as N2.
  rewrite nchar_app in N1, N2. lia.
Qed.

(** Behind a text without slash no occurrence ends inside the root. *)
Lemma field_behind_plain (h pre tau m a : string) :
  a +:+ h = pre +:+ tau -> h = tau +:+ m ->
  nchar "/" m <> 0%nat -> nchar "/" pre = 0%nat -> False.
Proof.
  intros Ha Hh Hm Hpre.
  destruct (root_before_field h pre tau m a Ha Hh) as [sigma [Hp [_ Hn]]].
  apply (f_equal (nchar "/")) in Hp. rewrite nchar_app in Hp. lia.
Qed.

(** Behind a text that ends with a slash and a gap [g] without slash, an
    occurrence that ends inside the root puts [g] into the root. *)
Lemma field_behind_gap (h z g tau m a : string) :
  a +:+ h = (z +:+ "/" +:+ g) +:+ tau -> h = tau +:+ m ->
  nchar "/" m <> 0%nat -> nchar "/" g = 0%nat -> count_sub g h <> 0%nat.
Proof.
  intros Ha Hh Hm Hg.
  destruct (root_before_field h _ tau m a Ha Hh) as [sigma [Hp [Hs Hn]]].
  assert (Hsig : exists y, sigma = y +:+ "/" +:+ g).
  { destruct (app_eq_cases z ("/" +:+ g) a sigma Hp)
      as [[y [_ [_ Hy]]] | [a1 [_ Ha1]]].
    - exists y. exact Hy.
    - destruct a1 as [|c a1].
      + exists "". rewrite app_nil_l_s in Ha1. now rewrite app_nil_l_s.
      + exfalso. rewrite app_cons_s in Ha1.
        change ("/" +:+ g) with (String "/" g) in Ha1. injection Ha1 as _ Ha1.
        apply (f_equal (nchar "/")) in Ha1. rewrite !nchar_app in Ha1.
        cbn [nchar] in Ha1. lia. }
  destruct Hsig as [y ->]. rewrite Hs.
  replace ((y +:+ "/" +:+ g) +:+ tau) with ((y +:+ "/") +:+ g +:+ tau)
    by now rewrite !app_assoc_s.
  apply occurs_count_sub.
Qed.

(** What follows a root in an occurrence that begins inside a copy of the
    root begins with the slash of the name. *)
Lemma name_head_slash (u' b m y : string) :
  String "/" u' +:+ b = m +:+ y -> m <> "" -> nchar "/" m <> 0%nat.
Proof.
  intros H Hm. destruct m as [|c m]; [congruence|].
  rewrite !app_cons_s in H. injection H as <- _. cbn. lia.
Qed.

(** **** The script as fixed texts around four copies of the root *)

Lemma tcl_script_blocks (root : Path) (h : string) :
  str_prefix root = h +:+ "/" ->
  tcl_script (layout root) =
  tcl_head +:+ h +:+ tcl_mid1 +:+ h +:+ tcl_mid2 +:+ h +:+ tcl_mid3 +:+ h +:+ tcl_tail.
Proof.
  intros Hh. destruct (layout_strs root h Hh) as [Ec [Er [Ep El]]].
  rewrite tcl_script_split, Ec, Er, Ep, El.
  unfold tcl_head, tcl_mid1, tcl_mid2, tcl_mid3, tcl_tail,
    tcl_gap1, tcl_gap2, tcl_gap3.
  rewrite !app_assoc_s. reflexivity.
Qed.

(** A root followed by a name that begins with a slash occurs in the script
    only with the name beginning inside one of the five fixed texts. *)
Lemma name_begins_in_fixed_text (h u' a b : string) :
  gap_free h ->
  let u := String "/" u' in
  tcl_head +:+ h +:+ tcl_mid1 +:+ h +:+ tcl_mid2 +:+ h +:+ tcl_mid3 +:+ h +:+ tcl_tail
  = a +:+ (h +:+ u) +:+ b ->
  begins_in h a u b "" tcl_head
            (h +:+ tcl_mid1 +:+ h +:+ tcl_mid2 +:+ h +:+ tcl_mid3 +:+ h +:+ tcl_tail) \/
  begins_in h a u b (tcl_head +:+ h) tcl_mid1
            (h +:+ tcl_mid2 +:+ h +:+ tcl_mid3 +:+ h +:+ tcl_tail) \/
  begins_in h a u b ((tcl_head +:+ h +:+ tcl_mid1) +:+ h) tcl_mid2
            (h +:+ tcl_mid3 +:+ h +:+ tcl_tail) \/
  begins_in h a u b ((tcl_head +:+ h +:+ tcl_mid1 +:+ h +:+ tcl_mid2) +:+ h) tcl_mid3
            (h +:+ tcl_tail) \/
  begins_in h a u b
            ((tcl_head +:+ h +:+ tcl_mid1 +:+ h +:+ tcl_mid2 +:+ h +:+ tcl_mid3) +:+ h)
            tcl_tail "".
Proof.
  intros [Hg1 [Hg2 Hg3]] u HT.
  assert (HT' : tcl_head +:+ h +:+ tcl_mid1 +:+ h +:+ tcl_mid2 +:+ h +:+ tcl_mid3
                         +:+ h +:+ tcl_tail
                = (a +:+ h) +:+ (u +:+ b)).
  { rewrite HT, !app_assoc_s. reflexivity. }
  clear HT. unfold begins_in.
  assert (Hsl : forall m y, u +:+ b = m +:+ y -> m <> "" -> nchar "/" m <> 0%nat).
  { intros m y. apply name_head_slash. }
  destruct (app_eq_cases _ _ _ _ HT') as [[m [E1 [Hm E2]]] | [a1 [E1 E2]]].
  { left. exists (a +:+ h), m. rewrite app_nil_l_s. auto. }
  destruct (app_eq_cases _ _ _ _ E2) as [[m [E3 [Hm E4]]] | [a2 [E3 E4]]].
  { exfalso. apply (field_behind_plain h tcl_head a1 m a E1 E3).
    - exact (Hsl m _ E4 Hm).
    - vm_compute. reflexivity. }
  destruct (app_eq_cases _ _ _ _ E4) as [[m [E5 [Hm E6]]] | [a3 [E5 E6]]].
  { right. left. exists a2, m. rewrite E1, E3, !app_assoc_s. auto. }
  destruct (app_eq_cases _ _ _ _ E6) as [[m [E7 [Hm E8]]] | [a4 [E7 E8]]].
  { exfalso. apply (field_behind_gap h (tcl_head +:+ h +:+ "/config") tcl_gap1 a3 m a).
    - rewrite E1, E3, E5. unfold tcl_mid1. rewrite !app_assoc_s. reflexivity.
    - exact E7.
    - exact (Hsl m _ E8 Hm).
    - vm_compute. reflexivity.
    - exact Hg1. }
  destruct (app_eq_cases _ _ _ _ E8) as [[m [E9 [Hm E10]]] | [a5 [E9 E10]]].
  { right. right. left. exists a4, m. rewrite E1, E3, E5, E7, !app_assoc_s. auto. }
  destruct (app_eq_cases _ _ _ _ E10) as [[m [E11 [Hm E12]]] | [a6 [E11 E12]]].
  { exfalso.
    apply (field_behind_gap h (tcl_head +:+ h +:+ tcl_mid1 +:+ h) tcl_gap2 a5 m a).
    - rewrite E1, E3, E5, E7, E9. unfold tcl_mid2. rewrite !app_assoc_s. reflexivity.
    - exact E11.
    - exact (Hsl m _ E12 Hm).
    - vm_compute. reflexivity.
    - exact Hg2. }
  destruct (app_eq_cases _ _ _ _ E12) as [[m [E13 [Hm E14]]] | [a7 [E13 E14]]].
  { right. right. right. left. exists a6, m.
    rewrite E1, E3, E5, E7, E9, E11, !app_assoc_s. auto. }
  destruct (app_eq_cases _ _ _ _ E14) as [[m [E15 [Hm E16]]] | [a8 [E15 E16]]].
  { exfalso.
    apply (field_behind_gap h (tcl_head +:+ h +:+ tcl_mid1 +:+ h +:+ tcl_mid2 +:+ h)
                            tcl_gap3 a7 m a).
    - rewrite E1, E3, E5, E7, E9, E11, E13. unfold tcl_mid3.
      rewrite !app_assoc_s. reflexivity.
    - exact E15.
    - exact (Hsl m _ E16 Hm).
    - vm_compute. reflexivity.
    - exact Hg3. }
  right. right. right. right. exists a8, (u +:+ b).
  rewrite E1, E3, E5, E7, E9, E11, E13, E15, !app_assoc_s, app_nil_r_s.
  repeat split; [exact E16 | discriminate].
Qed.

Ltac not_inside H :=
  destruct H as [a1 [m [_ [Hx [Hm Hy]]]]]; exfalso;
  refine (no_start_inside _ _ _ _ _ _ _ Hx Hm Hy); vm_compute; reflexivity.

Ltac at_head H :=
  destruct H as [a1 [m [Ha [Hx [Hm Hy]]]]];
  assert (a1 = "") as ->
      by (refine (no_start_after_head _ _ _ _ _ _ _ _ Hx Hm Hy); vm_compute; reflexivity);
  rewrite app_nil_r_s in Ha; exact (app_inv_tail_s _ _ _ Ha).

Lemma config_file_place (h a b : string) :
  gap_free h ->
  tcl_head +:+ h +:+ tcl_mid1 +:+ h +:+ tcl_mid2 +:+ h +:+ tcl_mid3 +:+ h +:+ tcl_tail
  = a +:+ (h +:+ "/config/openroad_config.tcl") +:+ b ->
  a = tcl_head.
Proof.
  intros Hg HT.
  destruct (name_begins_in_fixed_text h _ a b Hg HT) as [H | [H | [H | [H | H]]]].
  - not_inside H.
  - at_head H.
  - not_inside H.
  - not_inside H.
  - not_inside H.
Qed.

Lemma results_dir_place (h a b : string) :
  gap_free h ->
  tcl_head +:+ h +:+ tcl_mid1 +:+ h +:+ tcl_mid2 +:+ h +:+ tcl_mid3 +:+ h +:+ tcl_tail
  = a +:+ (h +:+ "/results") +:+ b ->
  a = tcl_head +:+ h +:+ tcl_mid1.
Proof.
  intros Hg HT.
  destruct (name_begins_in_fixed_text h _ a b Hg HT) as [H | [H | [H | [H | H]]]].
  - not_inside H.
  - not_inside H.
  - at_head H.
  - not_inside H.
  - not_inside H.
Qed.

Lemma reports_dir_place (h a b : string) :
  gap_free h ->
  tcl_head +:+ h +:+ tcl_mid1 +:+ h +:+ tcl_mid2 +:+ h +:+ tcl_mid3 +:+ h +:+ tcl_tail
  = a +:+ (h +:+ "/reports") +:+ b ->
  a = tcl_head +:+ h +:+ tcl_mid1 +:+ h +:+ tcl_mid2.
Proof.
  intros Hg HT.
  destruct (name_begins_in_fixed_text h _ a b Hg HT) as [H | [H | [H | [H | H]]]].
  - not_inside H.
  - not_inside H.
  - not_inside H.
  - at_head H.
  - not_inside H.
Qed.

Lemma logs_dir_place (h a b : string) :
  gap_free h ->
  tcl_head +:+ h +:+ tcl_mid1 +:+ h +:+ tcl_mid2 +:+ h +:+ tcl_mid3 +:+ h +:+ tcl_tail
  = a +:+ (h +:+ "/logs") +:+ b ->
  a = tcl_head +:+ h +:+ tcl_mid1 +:+ h +:+ tcl_mid2 +:+ h +:+ tcl_mid3.
Proof.
  intros Hg HT.
  destruct (name_begins_in_fixed_text h _ a b Hg HT) as [H | [H | [H | [H | H]]]].
  - not_inside H.
  - not_inside H.
  - not_inside H.
  - not_inside H.
  - at_head H.
Qed.


(** The text in front of the entries of a root that is not ".": the text
    of the root (nothing for the root directory) and a slash. *)
Lemma clear_root_prefix (root : Path) :
  clear_root root = true ->
  exists h, str_prefix root = h +:+ "/" /\ gap_free h.
Proof.
  unfold clear_root. intros H. apply andb_true_iff in H as [Hg Hne].
  cbn [forallb] in Hg. rewrite !andb_true_iff in Hg.
  destruct Hg as [G1 [G2 [G3 _]]].
  assert (Hz : forall g t, negb (contains g t) = true -> count_sub g t = 0%nat).
  { intros g t Hc. unfold contains in Hc. rewrite negb_involutive in Hc.
    now apply Nat.eqb_eq. }
  apply Hz in G1, G2, G3.
  destruct root as [[|] [|x l]]; cbn [absolute parts orb] in Hne; try discriminate.
  - exists "". split; [reflexivity|]. repeat split; vm_compute; reflexivity.
  - exists (str (mkPath true (x :: l))). split; [|repeat split; assumption].
    unfold str_prefix, str, dir_prefix. cbn [absolute parts].
    now rewrite app_assoc_s.
  - exists (str (mkPath false (x :: l))). split; [|repeat split; assumption].
    reflexivity.
Qed.

(** C9, amended: when the project root is not the empty relative path "."
    and its text holds none of the three fixed texts that the script puts
    between the last slash of one path and the start of the next (each of
    them holds a double quote and a line feed), the generated text holds
    the configuration-file path exactly once and each of the three
    directory paths exactly once.  Spaces, double quotes and line feeds in
    the root do not matter otherwise. *)
Theorem tcl_script_paths_once (root : Path) :
  clear_root root = true ->
  let self := layout root in
  count_sub (str (config_file self)) (tcl_script self) = 1%nat /\
  count_sub (str (results_dir self)) (tcl_script self) = 1%nat /\
  count_sub (str (reports_dir self)) (tcl_script self) = 1%nat /\
  count_sub (str (logs_dir self)) (tcl_script self) = 1%nat.
Proof.
  intros Hclear self.
  destruct (clear_root_prefix root Hclear) as [h [Hh Hg]].
  destruct (layout_strs root h Hh) as [Ec [Er [Ep El]]].
  unfold self. rewrite (tcl_script_blocks root h Hh), Ec, Er, Ep, El.
  repeat split.
  - apply (count_sub_unique _ tcl_head
             (nl +:+ tcl_seg1 +:+ dq +:+ h +:+ tcl_mid2 +:+ h +:+ tcl_mid3
                 +:+ h +:+ tcl_tail)).
    + unfold tcl_mid1, tcl_gap1. rewrite !app_assoc_s. reflexivity.
    + intros a b. now apply config_file_place.
  - apply (count_sub_unique _ (tcl_head +:+ h +:+ tcl_mid1)
             (dq +:+ tcl_seg2 +:+ dq +:+ h +:+ tcl_mid3 +:+ h +:+ tcl_tail)).
    + unfold tcl_mid2, tcl_gap2. rewrite !app_assoc_s. reflexivity.
    + intros a b. now apply results_dir_place.
  - apply (count_sub_unique _ (tcl_head +:+ h +:+ tcl_mid1 +:+ h +:+ tcl_mid2)
             (dq +:+ tcl_seg3 +:+ dq +:+ h +:+ tcl_tail)).
    + unfold tcl_mid3, tcl_gap3. rewrite !app_assoc_s. reflexivity.
    + intros a b. now apply reports_dir_place.
  - apply (count_sub_unique _
             (tcl_head +:+ h +:+ tcl_mid1 +:+ h +:+ tcl_mid2 +:+ h +:+ tcl_mid3)
             (dq +:+ tcl_seg4)).
    + unfold tcl_tail. rewrite !app_assoc_s. reflexivity.
    + intros a b. now apply logs_dir_place.
Qed.

Lemma tcl_script_paths_once_witness :
  let self := layout root_spaced in
  count_sub (str (config_file self)) (tcl_script self) = 1%nat /\
  count_sub (str (results_dir self)) (tcl_script self) = 1%nat /\
  count_sub (str (reports_dir self)) (tcl_script self) = 1%nat /\
  count_sub (str (logs_dir self)) (tcl_script self) = 1%nat.
Proof. apply (tcl_script_paths_once root_spaced). vm_compute. reflexivity. Defined.

(** A root without a mixed component is clear. *)
Lemma count_sub_empty (g : string) : g <> "" -> count_sub g "" = 0%nat.
Proof. destruct g; [congruence | reflexivity]. Qed.

Lemma count_sub_join (g : string) (l : list string) :
  has_char "/" g = false -> g <> "" ->
  (forall x, In x l -> count_sub g x = 0%nat) ->
  count_sub g (join "/" l) = 0%nat.
Proof.
  intros Hs Hne. induction l as [|x l IH]; intros Hl.
  - now apply count_sub_empty.
  - destruct l as [|y l].
    + apply Hl. now left.
    + change (join "/" (x :: y :: l)) with (x +:+ "/" +:+ join "/" (y :: l)).
      rewrite (count_sub_sep "/" g x _ Hs Hne).
      rewrite (Hl x (or_introl eq_refl)), IH; [reflexivity|].
      intros z Hz. apply Hl. now right.
Qed.

Lemma unmixed_root_clear (root : Path) :
  unmixed_root root = true -> clear_root root = true.
Proof.
  unfold unmixed_root, clear_root. intros H.
  apply andb_true_iff in H as [Hm Hne]. rewrite Hne, andb_true_r.
  rewrite forallb_forall in Hm.
  assert (Hgap : forall g, has_char "/" g = false -> has_char "034" g = true ->
                           has_char "010" g = true ->
                           negb (contains g (str root)) = true).
  { intros g Hs Hq Hn.
    assert (Hne' : g <> "") by (intros ->; discriminate).
    assert (Hpart : forall x, In x (parts root) -> count_sub g x = 0%nat).
    { intros x Hx. destruct (count_sub g x) eqn:E; [reflexivity|]. exfalso.
      destruct (count_sub_occurs g x) as [a [b ->]]; [lia|].
      specialize (Hm _ Hx). unfold mixed in Hm.
      rewrite !has_char_app, Hq, Hn, !orb_true_r in Hm. discriminate. }
    pose proof (count_sub_join g (parts root) Hs Hne' Hpart) as Hj.
    unfold contains. rewrite negb_involutive. apply Nat.eqb_eq.
    unfold str. destruct (absolute root).
    - pose proof (count_sub_sep "/" g "" (join "/" (parts root)) Hs Hne') as E.
      rewrite app_nil_l_s in E. change (String "/" "" +:+ ?x) with ("/" +:+ x) in E.
      rewrite E, Hj, count_sub_empty by exact Hne'. reflexivity.
    - destruct (parts root); [discriminate | exact Hj]. }
  cbn [forallb]. rewrite !Hgap by (vm_compute; reflexivity). reflexivity.
Qed.

(** *** C5 *)

(** What [generate_tcl_script] does when it returns: it returns the fixed
    script path, prints nothing, and leaves the file system with the text of
    [tcl_script] at that path and nothing else changed. *)
Lemma generate_tcl_script_inv (self : VixenSynthesisFlow) (w w' : World)
      (p : Path) (out : list string) :
  generate_tcl_script self w = mkRes (inr p) out w' ->
  p = project_root self // "scripts" // "vixen_synthesis.tcl" /\
  out = [] /\
  w' = with_fs w (<[str p := File (tcl_script self)]> (fs w)).
Proof.
  unfold generate_tcl_script, open_w, write, bind, get_fs, check_parent.
  cbv beta iota.
  set (sp := project_root self // "scripts" // "vixen_synthesis.tcl").
  destruct (fs w !! str (parent sp)) as [[|t]|]; try discriminate.
  assert (Hput : forall f : gmap string node,
             (<[str sp := File ""]> f) !! str sp = Some (File "")).
  { intros f. apply lookup_insert_eq. }
  destruct (fs w !! str sp) as [[|t]|]; try discriminate;
    unfold put_fs, ret, appended; rewrite fs_with_fs, Hput; cbv beta iota;
    intros H; injection H as <- <- <-;
    (split; [reflexivity|]); (split; [reflexivity|]);
    rewrite ?fs_with_fs, with_fs_with_fs, insert_insert_eq; reflexivity.
Qed.

Lemma generate_tcl_script_ok (self : VixenSynthesisFlow) (w : World) :
  let sp := project_root self // "scripts" // "vixen_synthesis.tcl" in
  fs w !! str (project_root self // "scripts") = Some Dir ->
  fs w !! str sp <> Some Dir ->
  generate_tcl_script self w =
  mkRes (inr sp) [] (with_fs w (<[str sp := File (tcl_script self)]> (fs w))).
Proof.
  intros sp Hpar Hnd.
  unfold generate_tcl_script, open_w, write, bind, get_fs, check_parent.
  cbv beta iota. fold sp. unfold sp at 1. rewrite parent_div, Hpar.
  assert (Hput : forall f : gmap string node,
             (<[str sp := File ""]> f) !! str sp = Some (File "")).
  { intros f. apply lookup_insert_eq. }
  destruct (fs w !! str sp) as [[|t]|]; [congruence | |];
    unfold put_fs, ret, appended; rewrite fs_with_fs, Hput; cbv beta iota;
    rewrite ?fs_with_fs, with_fs_with_fs, insert_insert_eq; reflexivity.
Qed.

(** C5: the text written by [generate_tcl_script] is [tcl_script], a
    function of the configuration-file path and the three directory paths
    alone: for two flows with the same four paths, in any two worlds
    (different file systems, clocks and process histories) in which the
    script is written, the two files hold the same text. *)
Theorem generate_tcl_script_deterministic
        (self1 self2 : VixenSynthesisFlow) (w1 w2 w1' w2' : World)
        (p1 p2 : Path) (out1 out2 : list string) :
  config_file self1 = config_file self2 ->
  results_dir self1 = results_dir self2 ->
  reports_dir self1 = reports_dir self2 ->
  logs_dir self1 = logs_dir self2 ->
  generate_tcl_script self1 w1 = mkRes (inr p1) out1 w1' ->
  generate_tcl_script self2 w2 = mkRes (inr p2) out2 w2' ->
  exists text,
    fs w1' !! str p1 = Some (File text) /\
    fs w2' !! str p2 = Some (File text) /\
    text = tcl_script self1 /\ text = tcl_script self2.
Proof.
  intros Hc Hr Hp Hl H1 H2.
  apply generate_tcl_script_inv in H1 as [_ [_ ->]].
  apply generate_tcl_script_inv in H2 as [_ [_ ->]].
  exists (tcl_script self1).
  assert (E : tcl_script self1 = tcl_script self2).
  { rewrite !tcl_script_split. now rewrite Hc, Hr, Hp, Hl. }
  rewrite !fs_with_fs, !lookup_insert_eq, E. auto.
Qed.

Lemma generate_tcl_script_deterministic_witness :
  exists text,
    fs (world (generate_tcl_script (layout root0) w0)) !!
       str (root0 // "scripts" // "vixen_synthesis.tcl") = Some (File text) /\
    fs (world (generate_tcl_script (layout root0) (mkWorld fs0 17 ["which yosys"]))) !!
       str (root0 // "scripts" // "vixen_synthesis.tcl") = Some (File text) /\
    text = tcl_script (layout root0) /\ text = tcl_script (layout root0).
Proof.
  apply (generate_tcl_script_deterministic
           (layout root0) (layout root0) w0 (mkWorld fs0 17 ["which yosys"])
           _ _ _ _ [] []); try reflexivity.
Defined.

(** ** The summary *)

Lemma not_In_existsb (m : string) (l : list string) :
  existsb (String.eqb m) l = false -> ~ In m l.
Proof.
  intros H Hin. apply not_true_iff_false in H. apply H.
  apply existsb_exists. exists m. split; [exact Hin | apply String.eqb_refl].
Qed.

Lemma In_existsb (m : string) (l : list string) :
  existsb (String.eqb m) l = true -> In m l.
Proof.
  intros H. apply existsb_exists in H as [x [Hin Hx]].
  apply String.eqb_eq in Hx. now subst.
Qed.

Ltac run_summary :=
  cbv beta iota zeta
      delta [print_summary bind exists_ get_fs read_text try_except print
             ret raise is_Exception value printed world].

(** *** C1 *)

Section Summary.

Variable decode : string -> option string.
Variable str_lower : string -> string.

(** [print_summary] never raises, leaves the world as it is, prints its
    title, and its timing line is decided by the node at
    reports/timing_report.txt, by whether its bytes decode and by the
    lowered text. *)
Lemma summary_lines_spec (self : VixenSynthesisFlow) (w : World) :
  value (print_summary decode str_lower self w) = inr tt /\
  world (print_summary decode str_lower self w) = w /\
  existsb (String.eqb summary_title)
          (printed (print_summary decode str_lower self w)) = true /\
  timing_lines (printed (print_summary decode str_lower self w)) =
  match fs w !! str (reports_dir self // "timing_report.txt") with
  | None => (false, false, false)
  | Some Dir => (false, false, true)
  | Some (File bytes) =>
      match decode bytes with
      | None => (false, false, true)
      | Some text =>
          if contains "slack" (str_lower text) then (true, false, false)
          else (false, true, false)
      end
  end.
Proof.
  run_summary.
  destruct (fs w !! str (reports_dir self // "timing_report.txt"))
    as [[|bytes]|] eqn:Et; cbv beta iota; rewrite ?Et; cbv beta iota;
  try (destruct (decode bytes) as [text|]; cbv beta iota;
       try (destruct (contains "slack" (str_lower text)); cbv beta iota));
  destruct (fs w !! str (reports_dir self // "area_report.txt"))
    as [na|]; cbv beta iota;
  destruct (fs w !! str (reports_dir self // "power_report.txt"))
    as [np|]; cbv beta iota;
  destruct (fs w !! str (results_dir self // "vixen_dio_pro_final.gds"))
    as [ng|]; cbv beta iota;
  (split; [reflexivity|]); (split; [reflexivity|]);
  generalize (str (results_dir self)), (str (reports_dir self)),
    (str (logs_dir self)), (str (results_dir self // "vixen_dio_pro_final.gds"));
  intros; vm_compute; split; reflexivity.
Qed.

(** The result of [print_summary], as a record. *)
Lemma print_summary_res (self : VixenSynthesisFlow) (w : World) :
  exists out,
    print_summary decode str_lower self w = mkRes (inr tt) out w /\
    In summary_title out.
Proof.
  destruct (summary_lines_spec self w) as [Hv [Hw [Ht _]]].
  destruct (print_summary decode str_lower self w) as [v out w'] eqn:E.
  cbn [value world printed] in Hv, Hw, Ht. subst v w'.
  exists out. split; [reflexivity | now apply In_existsb].
Qed.


End Summary.


(** ** Running commands *)

Section Running.

Variable spawn : string -> string -> gmap string node -> SpawnResult.
Variable fmt_2f : Z -> string.

(** The lines printed by [run_command] around a child that exits with
    status [rc]. *)
Lemma run_command_plain (self : VixenSynthesisFlow) (command : string)
      (w : World) (rc : Z) (output : string) (f' : gmap string node)
      (elapsed : Z) :
  spawn command (str (project_root self)) (fs w) = Exited rc output f' elapsed ->
  run_command spawn self command None None w =
  mkRes (inr (rc =? 0))
        (("Running: " +:+ command) ::
         if rc =? 0 then []
         else ["Error: Command failed with return code " +:+ pretty rc])
        (after_child w command f' elapsed).
Proof.
  intros Hs.
  cbv beta iota zeta
      delta [run_command truthy bind print try_except subprocess_run ret raise].
  rewrite Hs. cbv beta iota.
  destruct (rc =? 0) eqn:E; cbv beta iota.
  - rewrite E. reflexivity.
  - reflexivity.
Qed.

Lemma run_command_plain_error (self : VixenSynthesisFlow) (command : string)
      (w : World) (msg : string) :
  spawn command (str (project_root self)) (fs w) = SpawnError msg ->
  run_command spawn self command None None w =
  mkRes (inl (OSError msg)) ["Running: " +:+ command] w.
Proof.
  intros Hs.
  cbv beta iota zeta
      delta [run_command truthy bind print try_except subprocess_run ret raise].
  rewrite Hs. reflexivity.
Qed.

(** With a log file: the log is opened first, and the child's text is
    written to it. *)
Lemma run_command_logged (self : VixenSynthesisFlow) (command : string)
      (w w1 : World) (rc : Z) (output : string) (f' : gmap string node)
      (elapsed : Z) :
  let log_path := logs_dir self // "synthesis.log" in
  open_w log_path w = mkRes (inr tt) [] w1 ->
  spawn command (str (project_root self)) (fs w1) = Exited rc output f' elapsed ->
  run_command spawn self command (Some "synthesis.log") None w =
  mkRes (inr (rc =? 0))
        (("Running: " +:+ command) ::
         if rc =? 0 then []
         else ["Error: Command failed with return code " +:+ pretty rc])
        (with_fs (after_child w1 command f' elapsed)
                 (appended f' log_path output)).
Proof.
  intros log_path Ho Hs.
  cbv beta iota zeta delta [run_command truthy bind print].
  fold log_path. rewrite Ho. cbv beta iota.
  cbv beta iota zeta
      delta [try_except subprocess_run bind write get_fs put_fs ret raise].
  rewrite Hs. cbv beta iota.
  destruct (rc =? 0) eqn:E; cbv beta iota.
  - rewrite E. reflexivity.
  - reflexivity.
Qed.

Lemma run_command_logged_open_error (self : VixenSynthesisFlow)
      (command : string) (w w1 : World) (e : exn) (out : list string) :
  open_w (logs_dir self // "synthesis.log") w = mkRes (inl e) out w1 ->
  run_command spawn self command (Some "synthesis.log") None w =
  mkRes (inl e) (("Running: " +:+ command) :: out) w1.
Proof.
  intros Ho.
  cbv beta iota zeta delta [run_command truthy bind print].
  rewrite Ho. reflexivity.
Qed.

Lemma run_command_logged_spawn_error (self : VixenSynthesisFlow)
      (command : string) (w w1 : World) (msg : string) :
  open_w (logs_dir self // "synthesis.log") w = mkRes (inr tt) [] w1 ->
  spawn command (str (project_root self)) (fs w1) = SpawnError msg ->
  run_command spawn self command (Some "synthesis.log") None w =
  mkRes (inl (OSError msg)) ["Running: " +:+ command] w1.
Proof.
  intros Ho Hs.
  cbv beta iota zeta delta [run_command truthy bind print].
  rewrite Ho. cbv beta iota.
  cbv beta iota zeta delta [try_except subprocess_run].
  rewrite Hs. reflexivity.
Qed.

End Running.

(** ** Prerequisites *)

Lemma join_holds (sep t : string) (l : list string) :
  In t l -> exists a b, join sep l = a +:+ t +:+ b.
Proof.
  induction l as [|x l IH]; intros Hin; [destruct Hin|].
  destruct l as [|y l].
  - destruct Hin as [-> | []]. exists "", "". cbn [join].
    now rewrite app_nil_l_s, app_nil_r_s.
  - change (join sep (x :: y :: l)) with (x +:+ sep +:+ join sep (y :: l)).
    destruct Hin as [-> | Hin].
    + exists "", (sep +:+ join sep (y :: l)). reflexivity.
    + destruct (IH Hin) as [a [b ->]].
      exists (x +:+ sep +:+ a), b. now rewrite !app_assoc_s.
Qed.

Section Prerequisites.

Variable spawn : string -> string -> gmap string node -> SpawnResult.

(** [found tool]: the tool resolves on the search path. *)
Variable found : string -> bool.

Lemma probe_tools_spec (self : VixenSynthesisFlow) (todo : list string) :
  forall (missing : list string) (w : World),
    (forall tool, In tool todo -> which_probes spawn found self (fs w) tool) ->
    exists out w',
      probe_tools spawn self todo missing w =
      mkRes (inr (missing ++ List.filter (fun t => negb (found t)) todo)%list)
            out w'
      /\ fs w' = fs w.
Proof.
  induction todo as [|tool todo IH]; intros missing w Hw.
  - exists [], w. cbn [probe_tools List.filter]. rewrite app_nil_r. split; reflexivity.
  - destruct (Hw tool (or_introl eq_refl)) as [rc [output [elapsed [Hs Hrc]]]].
    cbn [probe_tools]. unfold bind at 1.
    rewrite (run_command_plain spawn self _ w rc output (fs w) elapsed Hs).
    cbv beta iota.
    destruct (IH (if rc =? 0 then missing else (missing ++ [tool])%list)
                 (after_child w ("which " +:+ tool) (fs w) elapsed))
      as [out [w' [Heq Hfs]]].
    { intros t Ht. apply Hw. now right. }
    rewrite Heq. eexists _, w'. split; [|exact Hfs].
    f_equal. f_equal. cbn [List.filter]. rewrite <- Hrc.
    destruct (rc =? 0); cbn [negb]; [reflexivity | now rewrite <- app_assoc].
Qed.

(** C6: when each probe [which tool] can be started, leaves the file
    system alone and exits with status 0 exactly when the tool resolves,
    [check_prerequisites] returns true if and only if every one of
    openroad, yosys and klayout resolves; when it returns false it prints
    the line of the missing tools, which names every tool of the list that
    does not resolve. *)
Theorem check_prerequisites_spec (self : VixenSynthesisFlow) (w : World) :
  (forall tool, In tool tools -> which_probes spawn found self (fs w) tool) ->
  let r := check_prerequisites spawn self w in
  let missing := List.filter (fun t => negb (found t)) tools in
  value r = inr (forallb found tools) /\
  (forallb found tools = false ->
   In ("Error: Missing required tools: " +:+ join ", " missing) (printed r) /\
   forall tool, In tool tools -> found tool = false ->
                exists line, In line (printed r) /\ count_sub tool line <> 0%nat).
Proof.
  intros Hw r missing.
  destruct (probe_tools_spec self tools [] w Hw) as [out [w' [Heq _]]].
  rewrite app_nil_l in Heq. fold missing in Heq.
  assert (Hr : r = match missing with
                   | _ :: _ =>
                       mkRes (inr false)
                             (out ++ ["Error: Missing required tools: "
                                        +:+ join ", " missing;
                                      "Please install OpenROAD and required dependencies"])%list
                             w'
                   | [] => mkRes (inr true) (out ++ [])%list w'
                   end).
  { unfold r, check_prerequisites, bind at 1. rewrite Heq.
    destruct missing; reflexivity. }
  assert (Hall : forallb found tools = match missing with [] => true | _ => false end).
  { unfold missing, tools. cbn [forallb List.filter].
    destruct (found "openroad"), (found "yosys"), (found "klayout"); reflexivity. }
  split.
  - rewrite Hr, Hall. destruct missing; reflexivity.
  - intros Hf. rewrite Hall in Hf.
    assert (Hline : In ("Error: Missing required tools: " +:+ join ", " missing)
                       (printed r)).
    { rewrite Hr. destruct missing; [discriminate|]. cbn [printed].
      apply in_or_app. right. now left. }
    split; [exact Hline|].
    intros tool Ht Hnf.
    exists ("Error: Missing required tools: " +:+ join ", " missing).
    split; [exact Hline|].
    assert (Hin : In tool missing).
    { unfold missing. apply filter_In. split; [exact Ht | now rewrite Hnf]. }
    destruct (join_holds ", " tool missing Hin) as [a [b ->]].
    rewrite <- app_assoc_s. apply occurs_count_sub.
Qed.

End Prerequisites.

Lemma check_prerequisites_spec_witness :
  let r := check_prerequisites sh_no_yosys (layout root0) w0 in
  let missing := List.filter (fun t => negb (found_no_yosys t)) tools in
  value r = inr (forallb found_no_yosys tools) /\
  (forallb found_no_yosys tools = false ->
   In ("Error: Missing required tools: " +:+ join ", " missing) (printed r) /\
   forall tool, In tool tools -> found_no_yosys tool = false ->
                exists line, In line (printed r) /\ count_sub tool line <> 0%nat).
Proof.
  apply (check_prerequisites_spec sh_no_yosys found_no_yosys (layout root0) w0).
  intros tool [<- | [<- | [<- | []]]].
  - exists 0, "", 1. split; reflexivity.
  - exists 1, "", 1. split; reflexivity.
  - exists 0, "", 1. split; reflexivity.
Defined.

(** ** The run *)

Lemma open_w_res (p : Path) (w : World) :
  (exists e, open_w p w = mkRes (inl e) [] w) \/
  open_w p w = mkRes (inr tt) [] (with_fs w (<[str p := File ""]> (fs w))).
Proof.
  unfold open_w, bind, get_fs, check_parent. cbv beta iota.
  destruct (fs w !! str (parent p)) as [[|t]|];
    [| left; eexists; reflexivity | left; eexists; reflexivity].
  destruct (fs w !! str p) as [[|t]|];
    [left; eexists; reflexivity | right; reflexivity | right; reflexivity].
Qed.

Lemma open_w_ok (p : Path) (w : World) :
  fs w !! str (parent p) = Some Dir -> fs w !! str p <> Some Dir ->
  open_w p w = mkRes (inr tt) [] (with_fs w (<[str p := File ""]> (fs w))).
Proof.
  intros Hpar Hnd. unfold open_w, bind, get_fs, check_parent. cbv beta iota.
  rewrite Hpar. destruct (fs w !! str p) as [[|t]|]; [congruence | |]; reflexivity.
Qed.

Section Run.

Variable decode : string -> option string.
Variable str_lower : string -> string.
Variable spawn : string -> string -> gmap string node -> SpawnResult.
Variable fmt_2f : Z -> string.




End Run.

Ltac path_ne :=
  let E := fresh "E" in
  intros E; rewrite !str_div, ?str_prefix_div, ?app_assoc_s in E;
  apply app_inv_head_s in E; vm_compute in E; discriminate.

(** *** C2 *)



(** *** C4 *)



(** ** What can be raised *)

Lemma roe_ret {A} (a : A) : raises_only_Exception (ret a).
Proof. intros w e H. discriminate. Qed.

Lemma roe_print (s : string) : raises_only_Exception (print s).
Proof. intros w e H. discriminate. Qed.

Lemma roe_raise {A} (e : exn) :
  is_Exception e = true -> raises_only_Exception (@raise A e).
Proof. intros He w e' H. injection H as <-. exact He. Qed.

Lemma roe_bind {A B} (m : M A) (k : A -> M B) :
  raises_only_Exception m -> (forall a, raises_only_Exception (k a)) ->
  raises_only_Exception (bind m k).
Proof.
  intros Hm Hk w e. unfold bind.
  destruct (m w) as [[e1|a] out w1] eqn:E1.
  - intros H. injection H as <-. apply (Hm w). now rewrite E1.
  - destruct (k a w1) as [v out2 w2] eqn:E2. cbn [value]. intros ->.
    apply (Hk a w1). now rewrite E2.
Qed.

Lemma roe_try_except {A} (m : M A) (handles : exn -> bool) (h : exn -> M A) :
  raises_only_Exception m -> (forall e, raises_only_Exception (h e)) ->
  raises_only_Exception (try_except m handles h).
Proof.
  intros Hm Hh w e. unfold try_except.
  destruct (m w) as [[e1|a] out w1] eqn:E1; [|discriminate].
  destruct (handles e1).
  - destruct (h e1 w1) as [v out2 w2] eqn:E2. cbn [value]. intros ->.
    apply (Hh e1 w1). now rewrite E2.
  - intros H. injection H as <-. apply (Hm w). now rewrite E1.
Qed.

Lemma roe_if {A} (b : bool) (m1 m2 : M A) :
  raises_only_Exception m1 -> raises_only_Exception m2 ->
  raises_only_Exception (if b then m1 else m2).
Proof. now destruct b. Qed.

Lemma roe_mkdir_exist_ok (p : Path) : raises_only_Exception (mkdir_exist_ok p).
Proof.
  intros w e. unfold mkdir_exist_ok, bind, get_fs, check_parent. cbv beta iota.
  destruct (fs w !! str (parent p)) as [[|t]|];
    [destruct (fs w !! str p) as [[|t]|] | |];
    cbn [value raise put_fs ret]; intros H; try discriminate;
    injection H as <-; first [reflexivity | apply walk_error_is_Exception].
Qed.

Lemma roe_open_w (p : Path) : raises_only_Exception (open_w p).
Proof.
  intros w e. destruct (open_w_res p w) as [[e' He] | Ho].
  - unfold open_w, bind, get_fs, check_parent in *. cbv beta iota in *.
    destruct (fs w !! str (parent p)) as [[|t]|];
      [destruct (fs w !! str p) as [[|t]|] | |];
      cbn [value raise put_fs ret]; intros H; try discriminate;
      injection H as <-; first [reflexivity | apply walk_error_is_Exception].
  - rewrite Ho. discriminate.
Qed.

Lemma roe_write (p : Path) (text : string) : raises_only_Exception (write p text).
Proof. intros w e H. discriminate. Qed.

Lemma roe_exists_ (p : Path) : raises_only_Exception (exists_ p).
Proof. intros w e H. discriminate. Qed.

Lemma roe_time_time : raises_only_Exception time_time.
Proof. intros w e H. discriminate. Qed.

Lemma roe_for_each {A} (l : list A) (body : A -> M unit) :
  (forall x, raises_only_Exception (body x)) ->
  raises_only_Exception (for_each l body).
Proof.
  intros Hb. induction l as [|x l IH]; [apply roe_ret|].
  cbn [for_each]. apply roe_bind; [apply Hb | intros _; exact IH].
Qed.

Lemma roe_init (file : Path) : raises_only_Exception (init file).
Proof.
  unfold init. apply roe_bind; [|intros _; apply roe_ret].
  apply roe_for_each. intros x. apply roe_mkdir_exist_ok.
Qed.

Lemma roe_generate_tcl_script (self : VixenSynthesisFlow) :
  raises_only_Exception (generate_tcl_script self).
Proof.
  unfold generate_tcl_script.
  apply roe_bind; [apply roe_open_w | intros _].
  apply roe_bind; [apply roe_write | intros _; apply roe_ret].
Qed.

Lemma roe_print_summary (decode : string -> option string)
      (str_lower : string -> string) (self : VixenSynthesisFlow) :
  raises_only_Exception (print_summary decode str_lower self).
Proof.
  intros w e H. destruct (summary_lines_spec decode str_lower self w) as [Hv _].
  rewrite Hv in H. discriminate.
Qed.

Section Raising.

Variable decode : string -> option string.
Variable str_lower : string -> string.
Variable spawn : string -> string -> gmap string node -> SpawnResult.
Variable fmt_2f : Z -> string.

Lemma roe_subprocess_run (command : string) (cwd : Path) (stdout : option Path) :
  raises_only_Exception (subprocess_run spawn command cwd stdout).
Proof.
  intros w e. unfold subprocess_run.
  destruct (spawn command (str cwd) (fs w)) as [msg | rc output f' elapsed].
  - intros H. now injection H as <-.
  - revert e. apply (roe_bind _ _).
    + destruct stdout; [apply roe_write | apply roe_ret].
    + intros _. apply roe_if; [apply roe_ret | now apply roe_raise].
Qed.

Lemma roe_run_command (self : VixenSynthesisFlow) (command : string)
      (log_file : option string) (cwd : option Path) :
  raises_only_Exception (run_command spawn self command log_file cwd).
Proof.
  unfold run_command.
  apply roe_bind; [apply roe_print | intros _].
  assert (Htry : forall so,
             raises_only_Exception
               (try_except
                  (returncode <-
                     subprocess_run spawn command
                       match cwd with
                       | Some c => c
                       | None => project_root self
                       end so ;;
                   ret (returncode =? 0))
                  is_CalledProcessError
                  (fun e =>
                     print ("Error: Command failed with return code "
                            +:+ pretty (returncode_of e)) ;;;
                     ret false))).
  { intros so. apply roe_try_except.
    - apply roe_bind; [apply roe_subprocess_run | intros; apply roe_ret].
    - intros e. apply roe_bind; [apply roe_print | intros; apply roe_ret]. }
  destruct (truthy log_file).
  - apply roe_bind; [apply roe_open_w | intros _; apply Htry].
  - apply Htry.
Qed.

Lemma roe_probe_tools (self : VixenSynthesisFlow) (todo missing : list string) :
  raises_only_Exception (probe_tools spawn self todo missing).
Proof.
  revert missing. induction todo as [|tool todo IH]; intros missing.
  - apply roe_ret.
  - cbn [probe_tools]. apply roe_bind; [apply roe_run_command | intros b; apply IH].
Qed.

Lemma roe_check_prerequisites (self : VixenSynthesisFlow) :
  raises_only_Exception (check_prerequisites spawn self).
Proof.
  unfold check_prerequisites.
  apply roe_bind; [apply roe_probe_tools | intros missing].
  destruct missing; [apply roe_ret|].
  repeat (apply roe_bind; [apply roe_print | intros _]). apply roe_ret.
Qed.

Lemma roe_run_synthesis (self : VixenSynthesisFlow) :
  raises_only_Exception (run_synthesis decode str_lower spawn fmt_2f self).
Proof.
  unfold run_synthesis.
  repeat (apply roe_bind; [apply roe_print | intros _]).
  apply roe_bind; [apply roe_time_time | intros start_time].
  apply roe_bind; [apply roe_generate_tcl_script | intros sp].
  apply roe_bind; [apply roe_run_command | intros success].
  apply roe_bind; [apply roe_time_time | intros end_time].
  apply roe_bind; [| intros _; apply roe_ret].
  destruct success.
  - apply roe_bind; [apply roe_print | intros _; apply roe_print_summary].
  - apply roe_bind; [apply roe_print | intros _; apply roe_print].
Qed.

End Raising.

(** ** The command line *)

Lemma exit_status_raise (e : exn) (out : list string) (w : World) :
  is_Exception e = true -> exit_status (mkRes (inl e) out w) = 1.
Proof. destruct e; cbn; intros H; try reflexivity; discriminate. Qed.

(** The exit status of [main] from the results of the three steps: with a
    help flag [main] prints the usage text and returns; otherwise the exit
    status is 0 exactly when construction succeeds, the prerequisite check
    returns true and [run_synthesis] returns true; a false check ends
    [main] with [sys.exit(1)] before [run_synthesis], and so does a false
    [run_synthesis]. *)
Lemma main_status_by_results
        (decode : string -> option string) (str_lower : string -> string)
        (spawn : string -> string -> gmap string node -> SpawnResult)
        (fmt_2f : Z -> string) (file : Path) (argv : list string) (w : World) :
  let r := main decode str_lower spawn fmt_2f file argv w in
  if asks_help argv then
    r = mkRes (inr tt) usage w /\ exit_status r = 0
  else
    (exit_status r = 0 <->
     exists self out1 w1 out2 w2 out3 w3,
       init file w = mkRes (inr self) out1 w1 /\
       check_prerequisites spawn self w1 = mkRes (inr true) out2 w2 /\
       run_synthesis decode str_lower spawn fmt_2f self w2 = mkRes (inr true) out3 w3) /\
    (forall self out1 w1 out2 w2,
        init file w = mkRes (inr self) out1 w1 ->
        check_prerequisites spawn self w1 = mkRes (inr false) out2 w2 ->
        r = mkRes (inl (SystemExit 1)) (out1 ++ out2) w2 /\ exit_status r = 1) /\
    (forall self out1 w1 out2 w2 out3 w3,
        init file w = mkRes (inr self) out1 w1 ->
        check_prerequisites spawn self w1 = mkRes (inr true) out2 w2 ->
        run_synthesis decode str_lower spawn fmt_2f self w2 = mkRes (inr false) out3 w3 ->
        exit_status r = 1).
Proof.
  intros r. subst r. unfold main.
  destruct (asks_help argv); [split; reflexivity|].
  unfold bind, sys_exit, raise, ret.
  destruct (init file w) as [[e|self] out1 w1] eqn:Hi.
  { pose proof (roe_init file w e) as He. rewrite Hi in He.
    rewrite exit_status_raise by (now apply He).
    split; [split; [discriminate | intros (? & ? & ? & ? & ? & ? & ? & H & _);
                                   discriminate]|].
    split; intros; discriminate. }
  destruct (check_prerequisites spawn self w1) as [[e|[|]] out2 w2] eqn:Hc.
  { pose proof (roe_check_prerequisites spawn self w1 e) as He. rewrite Hc in He.
    rewrite exit_status_raise by (now apply He).
    split; [split; [discriminate|] |split].
    - intros (s & o1 & x1 & o2 & x2 & o3 & x3 & H1 & H2 & _).
      injection H1 as <- <- <-. rewrite Hc in H2. discriminate.
    - intros s o1 x1 o2 x2 H1 H2. injection H1 as <- <- <-.
      rewrite Hc in H2. discriminate.
    - intros s o1 x1 o2 x2 o3 x3 H1 H2 _. injection H1 as <- <- <-.
      rewrite Hc in H2. discriminate. }
  2:{ split; [split; [discriminate|] |split].
      - intros (s & o1 & x1 & o2 & x2 & o3 & x3 & H1 & H2 & _).
        injection H1 as <- <- <-. rewrite Hc in H2. discriminate.
      - intros s o1 x1 o2 x2 H1 H2. injection H1 as <- <- <-.
        rewrite Hc in H2. injection H2 as <- <-.
        rewrite app_nil_r. split; reflexivity.
      - intros s o1 x1 o2 x2 o3 x3 H1 H2 _. injection H1 as <- <- <-.
        rewrite Hc in H2. discriminate. }
  destruct (run_synthesis decode str_lower spawn fmt_2f self w2) as [[e|[|]] out3 w3] eqn:Hr.
  - pose proof (roe_run_synthesis decode str_lower spawn fmt_2f self w2 e) as He. rewrite Hr in He.
    rewrite exit_status_raise by (now apply He).
    split; [split; [discriminate|] |split].
    + intros (s & o1 & x1 & o2 & x2 & o3 & x3 & H1 & H2 & H3).
      injection H1 as <- <- <-. rewrite Hc in H2. injection H2 as <- <-.
      rewrite Hr in H3. discriminate.
    + intros s o1 x1 o2 x2 H1 H2. injection H1 as <- <- <-.
      rewrite Hc in H2. discriminate.
    + reflexivity.
  - split; [split; [|reflexivity] |split].
    + intros _. exists self, out1, w1, out2, w2, out3, w3. auto.
    + intros s o1 x1 o2 x2 H1 H2. injection H1 as <- <- <-.
      rewrite Hc in H2. discriminate.
    + intros s o1 x1 o2 x2 o3 x3 H1 H2 H3. injection H1 as <- <- <-.
      rewrite Hc in H2. injection H2 as <- <-. rewrite Hr in H3. discriminate.
  - split; [split; [discriminate|] |split].
    + intros (s & o1 & x1 & o2 & x2 & o3 & x3 & H1 & H2 & H3).
      injection H1 as <- <- <-. rewrite Hc in H2. injection H2 as <- <-.
      rewrite Hr in H3. discriminate.
    + intros s o1 x1 o2 x2 H1 H2. injection H1 as <- <- <-.
      rewrite Hc in H2. discriminate.
    + reflexivity.
Qed.

(** ** Sample runs of [main] *)

Example main_help :
  main decode_ascii ascii_lower (sh_openroad 0) fmt0 file0 ["vixen_synthesis.py"; "--help"] w0
  = mkRes (inr tt) usage w0.
Proof. reflexivity. Qed.

Example main_missing_yosys :
  let r := main decode_ascii ascii_lower sh_no_yosys fmt0 file0 ["vixen_synthesis.py"] w0 in
  exit_status r = 1 /\
  spawned (world r) = ["which openroad"; "which yosys"; "which klayout"] /\
  fs (world r) !! "/proj/scripts/vixen_synthesis.tcl" = None.
Proof. vm_compute. repeat split. Qed.

Example main_success :
  let r := main decode_ascii ascii_lower (sh_openroad 0) fmt0 file0 ["vixen_synthesis.py"] w0 in
  exit_status r = 0 /\
  fs (world r) !! "/proj/logs/synthesis.log" = Some (File "OpenROAD") /\
  In msg_timing_generated (printed r).
Proof.
  split; [vm_compute; reflexivity|].
  split; [vm_compute; reflexivity|].
  apply In_existsb. vm_compute. reflexivity.
Qed.

Example main_tool_fails :
  let r := main decode_ascii ascii_lower (sh_openroad 2) fmt0 file0 ["vixen_synthesis.py"] w0 in
  exit_status r = 1 /\ ~ In summary_title (printed r).
Proof.
  split; [vm_compute; reflexivity|].
  apply not_In_existsb. vm_compute. reflexivity.
Qed.

(** * Further properties of the flow *)

(** ** Construction that fails *)

Lemma mkdir_exist_ok_bad_parent (p : Path) (w : World) :
  fs w !! str (parent p) <> Some Dir ->
  exists e, mkdir_exist_ok p w = mkRes (inl e) [] w /\
            (e = FileNotFoundError (str p) \/ e = NotADirectoryError (str p)).
Proof.
  intros H. unfold mkdir_exist_ok, bind, get_fs, check_parent. cbv beta iota.
  destruct (fs w !! str (parent p)) as [[|t]|]; [congruence | |];
    eexists; (split; [reflexivity|]); apply walk_error_cases.
Qed.

Lemma init_bad_root (file : Path) (w : World) :
  let root := parent (parent file) in
  fs w !! str root <> Some Dir ->
  exists e, init file w = mkRes (inl e) [] w /\
            (e = FileNotFoundError (str (root // "results")) \/
             e = NotADirectoryError (str (root // "results"))).
Proof.
  intros root H.
  destruct (mkdir_exist_ok_bad_parent (root // "results") w) as [e [He Hk]].
  { now rewrite parent_div. }
  exists e. split; [|exact Hk].
  unfold init. fold root. cbn [layout results_dir reports_dir logs_dir for_each].
  unfold bind. now rewrite He.
Qed.



(** The walk at work: with a regular file /proj and the script at
    /proj/sub/scripts/vixen_synthesis.py, the root /proj/sub is missing and
    construction raises NotADirectoryError; in an empty file system it
    raises FileNotFoundError. *)
Example init_below_regular_file :
  value (init (mkPath true ["proj"; "sub"; "scripts"; "vixen_synthesis.py"])
              (mkWorld (<["/proj" := File "x"]> (<["/" := Dir]> ∅)) 0 []))
  = inl (NotADirectoryError "/proj/sub/results") /\
  value (init file0 w_empty) = inl (FileNotFoundError "/proj/results").
Proof. split; vm_compute; reflexivity. Qed.

(** X2: construction is not all-or-nothing.  When results can be made and
    reports is a regular file, construction raises FileExistsError for
    reports after results has been made: the world it leaves holds the
    results directory, and no logs directory has been made. *)
Theorem init_stops_at_regular_file (file : Path) (w : World) (t : string) :
  let root := parent (parent file) in
  fs w !! str root = Some Dir ->
  fs w !! str (root // "results") = None ->
  fs w !! str (root // "reports") = Some (File t) ->
  let r := init file w in
  value r = inl (FileExistsError (str (root // "reports"))) /\
  fs (world r) = <[str (root // "results") := Dir]> (fs w) /\
  fs (world r) !! str (root // "logs") = fs w !! str (root // "logs").
Proof.
  intros root Hroot Hres Hrep r.
  assert (Hne : forall n m, n <> m -> str (root // n) <> str (root // m)).
  { intros n m Hnm E. apply Hnm. exact (str_div_inj _ _ _ E). }
  pose proof (mkdir_exist_ok_ok (root // "results") w) as H1.
  rewrite parent_div in H1.
  specialize (H1 Hroot ltac:(intros u; congruence)).
  assert (Hr : r = mkRes (inl (FileExistsError (str (root // "reports")))) []
                     (with_fs w (<[str (root // "results") := Dir]> (fs w)))).
  { unfold r, init. fold root.
    cbn [layout results_dir reports_dir logs_dir for_each].
    unfold bind. rewrite H1. cbv beta iota.
    unfold mkdir_exist_ok, bind, get_fs, check_parent. cbv beta iota.
    rewrite parent_div, fs_with_fs.
    rewrite (lookup_insert_ne (fs w) (str (root // "results")) (str root))
      by (apply str_div_ne; simpl; lia).
    rewrite Hroot.
    rewrite (lookup_insert_ne (fs w) (str (root // "results")) (str (root // "reports")))
      by (apply Hne; discriminate).
    rewrite Hrep. reflexivity. }
  rewrite Hr. cbn [value world]. rewrite fs_with_fs.
  split; [reflexivity|]. split; [reflexivity|].
  apply lookup_insert_ne. apply Hne. discriminate.
Qed.

Lemma init_stops_at_regular_file_witness :
  let r := init file0 w_reports_file in
  value r = inl (FileExistsError (str (parent (parent file0) // "reports"))) /\
  fs (world r) = <[str (parent (parent file0) // "results") := Dir]> (fs w_reports_file) /\
  fs (world r) !! str (parent (parent file0) // "logs")
  = fs w_reports_file !! str (parent (parent file0) // "logs").
Proof.
  apply (init_stops_at_regular_file file0 w_reports_file "notes"); reflexivity.
Defined.

(** ** Writing the control script *)

(** X3: with the scripts directory in place and no directory where the
    script goes, [generate_tcl_script] returns the script path, prints
    nothing, and replaces whatever the script file held by the text of
    [tcl_script]; no other path, the clock and the process history are
    changed.  Generating again in the world so obtained changes nothing. *)
Theorem generate_tcl_script_overwrites (self : VixenSynthesisFlow) (w : World) :
  let sp := project_root self // "scripts" // "vixen_synthesis.tcl" in
  fs w !! str (project_root self // "scripts") = Some Dir ->
  fs w !! str sp <> Some Dir ->
  let r := generate_tcl_script self w in
  value r = inr sp /\ printed r = [] /\
  fs (world r) !! str sp = Some (File (tcl_script self)) /\
  (forall k, k <> str sp -> fs (world r) !! k = fs w !! k) /\
  clock (world r) = clock w /\ spawned (world r) = spawned w /\
  generate_tcl_script self (world r) = mkRes (inr sp) [] (world r).
Proof.
  intros sp Hdir Hnd r.
  pose proof (generate_tcl_script_ok self w Hdir Hnd) as Hg. fold sp in Hg.
  subst r. rewrite Hg. cbn [value printed world]. rewrite fs_with_fs.
  split; [reflexivity|]. split; [reflexivity|].
  split; [apply lookup_insert_eq|].
  split; [intros k Hk; now apply lookup_insert_ne|].
  split; [reflexivity|]. split; [reflexivity|].
  rewrite generate_tcl_script_ok; fold sp; rewrite fs_with_fs.
  - now rewrite with_fs_with_fs, insert_insert_eq.
  - rewrite lookup_insert_ne; [exact Hdir|].
    unfold sp. apply str_div_ne. simpl. lia.
  - rewrite lookup_insert_eq. discriminate.
Qed.

Lemma generate_tcl_script_overwrites_witness :
  let sp := project_root (layout root0) // "scripts" // "vixen_synthesis.tcl" in
  let r := generate_tcl_script (layout root0) w_old_script in
  value r = inr sp /\ printed r = [] /\
  fs (world r) !! str sp = Some (File (tcl_script (layout root0))) /\
  (forall k, k <> str sp -> fs (world r) !! k = fs w_old_script !! k) /\
  clock (world r) = clock w_old_script /\ spawned (world r) = spawned w_old_script /\
  generate_tcl_script (layout root0) (world r) = mkRes (inr sp) [] (world r).
Proof.
  apply (generate_tcl_script_overwrites (layout root0) w_old_script).
  - reflexivity.
  - vm_compute. discriminate.
Defined.

(** X4: with a directory where the script goes, [generate_tcl_script]
    raises IsADirectoryError and leaves the world as it is. *)
Theorem generate_tcl_script_over_directory (self : VixenSynthesisFlow) (w : World) :
  let sp := project_root self // "scripts" // "vixen_synthesis.tcl" in
  fs w !! str (project_root self // "scripts") = Some Dir ->
  fs w !! str sp = Some Dir ->
  generate_tcl_script self w = mkRes (inl (IsADirectoryError (str sp))) [] w.
Proof.
  intros sp Hdir Hsp.
  unfold generate_tcl_script, open_w, bind, get_fs, check_parent. cbv beta iota.
  fold sp. unfold sp at 1. rewrite parent_div, Hdir. fold sp. rewrite Hsp.
  reflexivity.
Qed.

Lemma generate_tcl_script_over_directory_witness :
  generate_tcl_script (layout root0) w_script_dir
  = mkRes (inl (IsADirectoryError
                  (str (project_root (layout root0) // "scripts" // "vixen_synthesis.tcl"))))
          [] w_script_dir.
Proof.
  apply (generate_tcl_script_over_directory (layout root0) w_script_dir); reflexivity.
Defined.

(** X5: the script holds its four settings as whole lines, whatever the
    paths are: the line that sources the configuration file and the three
    lines that set results_dir, reports_dir and logs_dir to the quoted
    paths. *)
Theorem tcl_script_setting_lines (self : VixenSynthesisFlow) :
  let text := tcl_script self in
  count_sub (nl +:+ "source " +:+ str (config_file self) +:+ nl) text <> 0%nat /\
  count_sub (nl +:+ "set results_dir " +:+ q (str (results_dir self)) +:+ nl) text
  <> 0%nat /\
  count_sub (nl +:+ "set reports_dir " +:+ q (str (reports_dir self)) +:+ nl) text
  <> 0%nat /\
  count_sub (nl +:+ "set logs_dir " +:+ q (str (logs_dir self)) +:+ nl) text
  <> 0%nat.
Proof.
  intros text. subst text. unfold tcl_script.
  generalize (str (config_file self)), (str (results_dir self)),
    (str (reports_dir self)), (str (logs_dir self)). intros c r p l.
  cbn [app unlines].
  assert (H : forall u a b t, t = a +:+ u +:+ b -> count_sub u t <> 0%nat).
  { intros u a b t ->. apply occurs_count_sub. }
  repeat split.
  - eapply (H _ (unlines [""; "# ============================================================================="; "# Vixen Dio Pro - OpenROAD Synthesis Script"; "# ============================================================================="; ""] +:+ "# Load configuration")).
    cbn [unlines]. rewrite !app_assoc_s. reflexivity.
  - eapply (H _ (unlines [""; "# ============================================================================="; "# Vixen Dio Pro - OpenROAD Synthesis Script"; "# ============================================================================="; ""; "# Load configuration"; "source " +:+ c; ""] +:+ "# Set up directories")).
    cbn [unlines]. rewrite !app_assoc_s. reflexivity.
  - eapply (H _ (unlines [""; "# ============================================================================="; "# Vixen Dio Pro - OpenROAD Synthesis Script"; "# ============================================================================="; ""; "# Load configuration"; "source " +:+ c; ""; "# Set up directories"] +:+ "set results_dir " +:+ q r)).
    cbn [unlines]. rewrite !app_assoc_s. reflexivity.
  - eapply (H _ (unlines [""; "# ============================================================================="; "# Vixen Dio Pro - OpenROAD Synthesis Script"; "# ============================================================================="; ""; "# Load configuration"; "source " +:+ c; ""; "# Set up directories"; "set results_dir " +:+ q r] +:+ "set reports_dir " +:+ q p)).
    cbn [unlines]. rewrite !app_assoc_s. reflexivity.
Qed.

(** ** The paths of a flow *)

(** X6: for every project root the paths that the flow reads and writes
    have pairwise different texts: the configuration file, the three output
    directories, the scripts directory, the control script, the log file,
    the three report files and the GDS file.  No file of the flow is
    written over another one. *)
Theorem layout_paths_distinct (root : Path) :
  let self := layout root in
  NoDup (map str [config_file self; results_dir self; reports_dir self;
                  logs_dir self; project_root self // "scripts";
                  project_root self // "scripts" // "vixen_synthesis.tcl";
                  logs_dir self // "synthesis.log";
                  reports_dir self // "timing_report.txt";
                  reports_dir self // "area_report.txt";
                  reports_dir self // "power_report.txt";
                  results_dir self // "vixen_dio_pro_final.gds"]).
Proof.
  intros self. subst self.
  cbn [layout config_file results_dir reports_dir logs_dir project_root map].
  repeat (apply NoDup_cons_2;
          [rewrite !elem_of_cons, elem_of_nil;
           intros Hin; repeat (destruct Hin as [Hin | Hin]); try contradiction;
           revert Hin; path_ne|]).
  apply NoDup_singleton.
Qed.

(** ** Commands *)

(** The working directory of a command: the one given, else the project
    root. *)
Lemma run_command_no_log
      (spawn : string -> string -> gmap string node -> SpawnResult)
      (self : VixenSynthesisFlow) (command : string) (log_file : option string)
      (cwd : option Path) (w : World) (rc : Z) (output : string)
      (f' : gmap string node) (elapsed : Z) :
  log_file = None \/ log_file = Some "" ->
  spawn command
        (str match cwd with Some c => c | None => project_root self end) (fs w)
  = Exited rc output f' elapsed ->
  run_command spawn self command log_file cwd w =
  mkRes (inr (rc =? 0))
        (("Running: " +:+ command) ::
         if rc =? 0 then []
         else ["Error: Command failed with return code " +:+ pretty rc])
        (after_child w command f' elapsed).
Proof.
  intros Hlog Hs.
  assert (Ht : truthy log_file = None) by (destruct Hlog as [-> | ->]; reflexivity).
  unfold run_command. rewrite Ht.
  cbv beta iota zeta delta [bind print try_except subprocess_run ret raise].
  rewrite Hs. cbv beta iota.
  destruct (rc =? 0) eqn:E; cbv beta iota.
  - rewrite E. reflexivity.
  - reflexivity.
Qed.

(** X7: without a log file ([None], or an empty name, which Python takes
    as false) [run_command] starts the child in the working directory given,
    or in the project root when none is given, and never raises for an exit
    status: the result is true for status 0 and false otherwise, the line
    that names the status is printed exactly for a nonzero status, no file
    is opened, and the world afterwards is the one the child leaves, with
    the command added to the history. *)
Theorem run_command_reports_status
        (spawn : string -> string -> gmap string node -> SpawnResult)
        (self : VixenSynthesisFlow) (command : string) (log_file : option string)
        (cwd : option Path) (w : World) (rc : Z) (output : string)
        (f' : gmap string node) (elapsed : Z) :
  log_file = None \/ log_file = Some "" ->
  spawn command
        (str match cwd with Some c => c | None => project_root self end) (fs w)
  = Exited rc output f' elapsed ->
  let r := run_command spawn self command log_file cwd w in
  value r = inr (rc =? 0) /\
  (In ("Error: Command failed with return code " +:+ pretty rc) (printed r)
   <-> rc <> 0) /\
  fs (world r) = f' /\
  spawned (world r) = (spawned w ++ [command])%list /\
  clock (world r) = clock w + elapsed.
Proof.
  intros Hlog Hs r. subst r.
  rewrite (run_command_no_log spawn self command log_file cwd w rc output f' elapsed
                              Hlog Hs).
  cbn [value printed world after_child fs spawned clock].
  split; [reflexivity|]. split; [|repeat split].
  destruct (rc =? 0) eqn:E.
  - apply Z.eqb_eq in E. split; [|intros H; contradiction].
    intros [H | []]. exfalso. revert H. generalize (pretty rc). intros s H.
    apply (f_equal (fun t => String.get 0 t)) in H. vm_compute in H. discriminate.
  - apply Z.eqb_neq in E. split; [intros _; exact E|]. intros _. right. now left.
Qed.

Lemma run_command_reports_status_witness :
  let r := run_command sh_no_yosys (layout root0) "which yosys" (Some "")
                       (Some (root0 // "scripts")) w0 in
  value r = inr (1 =? 0) /\
  (In ("Error: Command failed with return code " +:+ pretty 1) (printed r)
   <-> 1 <> 0) /\
  fs (world r) = fs w0 /\
  spawned (world r) = (spawned w0 ++ ["which yosys"])%list /\
  clock (world r) = clock w0 + 1.
Proof.
  apply (run_command_reports_status sh_no_yosys (layout root0) "which yosys"
           (Some "") (Some (root0 // "scripts")) w0 1 "" (fs w0) 1).
  - right. reflexivity.
  - reflexivity.
Defined.

(** ** More on the prerequisites *)

Section Probing.

Variable spawn : string -> string -> gmap string node -> SpawnResult.
Variable found : string -> bool.

(** The world and the lines after the probes that can be started. *)
Lemma probe_tools_world (self : VixenSynthesisFlow) (todo : list string) :
  forall (missing : list string) (w : World),
    (forall tool, In tool todo -> which_probes spawn found self (fs w) tool) ->
    exists v out w',
      probe_tools spawn self todo missing w = mkRes (inr v) out w' /\
      fs w' = fs w /\
      spawned w' = (spawned w ++ map (fun t => "which " +:+ t) todo)%list /\
      ((forall tool, In tool todo -> found tool = true) ->
       out = map (fun t => "Running: which " +:+ t) todo).
Proof.
  induction todo as [|tool todo IH]; intros missing w Hw.
  - exists missing, [], w. cbn [probe_tools map]. rewrite app_nil_r.
    repeat split.
  - destruct (Hw tool (or_introl eq_refl)) as [rc [output [elapsed [Hs Hrc]]]].
    cbn [probe_tools]. unfold bind at 1.
    rewrite (run_command_plain spawn self _ w rc output (fs w) elapsed Hs).
    cbv beta iota.
    destruct (IH (if rc =? 0 then missing else (missing ++ [tool])%list)
                 (after_child w ("which " +:+ tool) (fs w) elapsed))
      as [v [out [w' [Heq [Hfs [Hsp Hout]]]]]].
    { intros t Ht. apply Hw. now right. }
    rewrite Heq. eexists v, _, w'. split; [reflexivity|].
    split; [exact Hfs|]. split.
    + rewrite Hsp. cbn [after_child spawned map]. now rewrite <- app_assoc.
    + intros Hall. rewrite Hout by (intros t Ht; apply Hall; now right).
      rewrite Hrc, (Hall tool (or_introl eq_refl)). reflexivity.
Qed.

(** X8: when every probe can be started and leaves the file system alone,
    [check_prerequisites] probes all the three tools, in the order openroad,
    yosys, klayout, and goes on after a tool that is missing; it leaves the
    file system as it is; and when every tool is found it prints the three
    lines of the probes and nothing else. *)
Theorem check_prerequisites_probes_all (self : VixenSynthesisFlow) (w : World) :
  (forall tool, In tool tools -> which_probes spawn found self (fs w) tool) ->
  let r := check_prerequisites spawn self w in
  fs (world r) = fs w /\
  spawned (world r)
  = (spawned w ++ ["which openroad"; "which yosys"; "which klayout"])%list /\
  (forallb found tools = true ->
   printed r = ["Running: which openroad"; "Running: which yosys";
                "Running: which klayout"]).
Proof.
  intros Hw r.
  destruct (probe_tools_world self tools [] w Hw)
    as [v [out [w' [Heq [Hfs [Hsp Hout]]]]]].
  destruct (probe_tools_spec spawn found self tools [] w Hw)
    as [out2 [w2 [Heq2 _]]].
  rewrite Heq in Heq2. injection Heq2 as -> <- <-.
  assert (Hr : exists o, r = mkRes (inr (forallb found tools)) o w' /\
                         (forallb found tools = true -> o = out)).
  { unfold r, check_prerequisites. unfold bind at 1. rewrite Heq.
    cbn [app]. unfold tools. cbn [List.filter forallb].
    destruct (found "openroad"), (found "yosys"), (found "klayout");
      cbn [negb andb]; cbv beta iota; eexists;
      (split; [reflexivity|]); intros H; try discriminate; apply app_nil_r. }
  destruct Hr as [o [Hr Hp]]. rewrite Hr. cbn [world printed].
  split; [exact Hfs|]. split; [exact Hsp|].
  intros Hall. rewrite (Hp Hall). apply Hout.
  intros tool Ht. unfold tools in *. cbn [forallb] in Hall.
  rewrite !andb_true_iff in Hall.
  destruct Ht as [<- | [<- | [<- | []]]]; tauto.
Qed.

(** The probes up to one that cannot be started. *)
Lemma probe_tools_unstartable (self : VixenSynthesisFlow) (pre : list string) :
  forall (tool : string) (post missing : list string) (w : World) (msg : string),
    (forall t, In t pre -> which_probes spawn found self (fs w) t) ->
    spawn ("which " +:+ tool) (str (project_root self)) (fs w) = SpawnError msg ->
    exists out w',
      probe_tools spawn self (pre ++ tool :: post) missing w
      = mkRes (inl (OSError msg)) out w' /\
      fs w' = fs w /\
      spawned w' = (spawned w ++ map (fun t => "which " +:+ t) pre)%list.
Proof.
  induction pre as [|t0 pre IH]; intros tool post missing w msg Hpre Hs.
  - cbn [app probe_tools]. unfold bind.
    rewrite (run_command_plain_error spawn self _ w msg Hs).
    eexists _, w. repeat split. cbn [map]. now rewrite app_nil_r.
  - destruct (Hpre t0 (or_introl eq_refl)) as [rc [output [elapsed [Hs0 Hrc]]]].
    change ((t0 :: pre) ++ tool :: post)%list with (t0 :: (pre ++ tool :: post))%list.
    cbn [probe_tools]. unfold bind at 1.
    rewrite (run_command_plain spawn self _ w rc output (fs w) elapsed Hs0).
    cbv beta iota.
    destruct (IH tool post (if rc =? 0 then missing else (missing ++ [t0])%list)
                 (after_child w ("which " +:+ t0) (fs w) elapsed) msg)
      as [out [w' [Heq [Hfs Hsp]]]].
    { intros t Ht. apply Hpre. now right. }
    { exact Hs. }
    rewrite Heq. eexists _, w'. split; [reflexivity|].
    split; [exact Hfs|].
    rewrite Hsp. cbn [after_child spawned map]. now rewrite <- app_assoc.
Qed.

(** X9: a probe that cannot be started is not taken for a missing tool:
    when the tools before it can be probed and the shell cannot start the
    probe of a tool, [check_prerequisites] raises the OSError of the shell;
    the tools after it are not probed and no list of missing tools is
    printed. *)
Theorem check_prerequisites_unstartable_probe
        (self : VixenSynthesisFlow) (w : World)
        (pre : list string) (tool : string) (post : list string) (msg : string) :
  tools = (pre ++ tool :: post)%list ->
  (forall t, In t pre -> which_probes spawn found self (fs w) t) ->
  spawn ("which " +:+ tool) (str (project_root self)) (fs w) = SpawnError msg ->
  let r := check_prerequisites spawn self w in
  value r = inl (OSError msg) /\
  spawned (world r) = (spawned w ++ map (fun t => "which " +:+ t) pre)%list /\
  fs (world r) = fs w /\
  ~ In "Please install OpenROAD and required dependencies" (printed r).
Proof.
  intros Ht Hpre Hs r.
  destruct (probe_tools_unstartable self pre tool post [] w msg Hpre Hs)
    as [out [w' [Heq [Hfs Hsp]]]].
  assert (Hr : r = mkRes (inl (OSError msg)) out w').
  { unfold r, check_prerequisites, bind at 1. rewrite Ht, Heq. reflexivity. }
  rewrite Hr. cbn [value world printed].
  split; [reflexivity|]. split; [exact Hsp|]. split; [exact Hfs|].
  (* every printed line is a line of [run_command] *)
  assert (Hlines : forall todo missing w0 v o w1,
             probe_tools spawn self todo missing w0 = mkRes v o w1 ->
             forall line, In line o ->
                          String.get 0 line = Some "R"%char \/
                          String.get 0 line = Some "E"%char).
  { clear. induction todo as [|t0 todo IH]; intros missing w0 v o w1 H line Hin.
    - cbn [probe_tools] in H. injection H as <- <- <-. destruct Hin.
    - cbn [probe_tools] in H. unfold bind at 1 in H.
      destruct (spawn ("which " +:+ t0) (str (project_root self)) (fs w0))
        as [m | rc output f' elapsed] eqn:Hs0.
      + rewrite (run_command_plain_error spawn self _ w0 m Hs0) in H.
        injection H as <- <- <-. destruct Hin as [<- | []]. now left.
      + rewrite (run_command_plain spawn self _ w0 rc output f' elapsed Hs0) in H.
        cbv beta iota in H.
        destruct (probe_tools spawn self todo
                    (if rc =? 0 then missing else (missing ++ [t0])%list)
                    (after_child w0 ("which " +:+ t0) f' elapsed))
          as [v2 o2 w2] eqn:Hrest.
        injection H as <- <- <-.
        cbn [app] in Hin. destruct Hin as [<- | Hin]; [now left|].
        apply in_app_or in Hin as [Hin | Hin].
        * destruct (rc =? 0); [destruct Hin|].
          destruct Hin as [<- | []]. now right.
        * exact (IH _ _ _ _ _ Hrest line Hin). }
  intros Hin. destruct (Hlines _ _ _ _ _ _ Heq _ Hin) as [H | H];
    vm_compute in H; discriminate.
Qed.

End Probing.

Lemma check_prerequisites_probes_all_witness :
  let r := check_prerequisites sh_ok (layout root0) w0 in
  fs (world r) = fs w0 /\
  spawned (world r)
  = (spawned w0 ++ ["which openroad"; "which yosys"; "which klayout"])%list /\
  (forallb found_all tools = true ->
   printed r = ["Running: which openroad"; "Running: which yosys";
                "Running: which klayout"]).
Proof.
  apply (check_prerequisites_probes_all sh_ok found_all (layout root0) w0).
  intros tool _. exists 0, "", 1. split; reflexivity.
Defined.

Lemma check_prerequisites_unstartable_probe_witness :
  let r := check_prerequisites sh_yosys_unstartable (layout root0) w0 in
  value r = inl (OSError "Cannot allocate memory") /\
  spawned (world r) = (spawned w0 ++ map (fun t => "which " +:+ t) ["openroad"])%list /\
  fs (world r) = fs w0 /\
  ~ In "Please install OpenROAD and required dependencies" (printed r).
Proof.
  apply (check_prerequisites_unstartable_probe
           sh_yosys_unstartable found_all (layout root0) w0
           ["openroad"] "yosys" ["klayout"] "Cannot allocate memory").
  - reflexivity.
  - intros t [<- | []]. exists 0, "", 1. split; reflexivity.
  - reflexivity.
Defined.

(** ** More on the run *)

(** X10: the log file is opened before the child is started: when the
    child cannot be started, [run_command] raises the OSError of the shell
    and the log file is left empty, whatever it held before; the command is
    not added to the history. *)
Theorem run_command_truncates_log_first
        (spawn : string -> string -> gmap string node -> SpawnResult)
        (self : VixenSynthesisFlow) (command msg : string) (w : World) :
  let log_path := logs_dir self // "synthesis.log" in
  fs w !! str (logs_dir self) = Some Dir ->
  fs w !! str log_path <> Some Dir ->
  spawn command (str (project_root self)) (<[str log_path := File ""]> (fs w))
  = SpawnError msg ->
  let r := run_command spawn self command (Some "synthesis.log") None w in
  value r = inl (OSError msg) /\
  fs (world r) !! str log_path = Some (File "") /\
  spawned (world r) = spawned w.
Proof.
  intros log_path Hdir Hnd Hs r.
  assert (Ho : open_w log_path w =
               mkRes (inr tt) [] (with_fs w (<[str log_path := File ""]> (fs w)))).
  { apply open_w_ok; [|exact Hnd]. unfold log_path. now rewrite parent_div. }
  subst r.
  rewrite (run_command_logged_spawn_error spawn self command w _ msg Ho Hs).
  cbn [value world]. rewrite fs_with_fs.
  split; [reflexivity|]. split; [apply lookup_insert_eq | reflexivity].
Qed.

Lemma run_command_truncates_log_first_witness :
  let r := run_command sh_fail (layout root0) "openroad" (Some "synthesis.log")
                       None w_rerun in
  value r = inl (OSError "fork: Resource temporarily unavailable") /\
  fs (world r) !! str (logs_dir (layout root0) // "synthesis.log") = Some (File "") /\
  spawned (world r) = spawned w_rerun.
Proof.
  apply (run_command_truncates_log_first sh_fail (layout root0) "openroad"
           "fork: Resource temporarily unavailable" w_rerun).
  - reflexivity.
  - vm_compute. discriminate.
  - reflexivity.
Defined.

Section Running2.

Variable decode : string -> option string.
Variable str_lower : string -> string.
Variable spawn : string -> string -> gmap string node -> SpawnResult.
Variable fmt_2f : Z -> string.

(** X11: the control script is written before the log file is opened: when
    the scripts directory is there and the logs directory is not,
    [run_synthesis] raises at the log file, no child is started, and the
    control script has been written all the same. *)
Theorem run_synthesis_writes_script_first (root : Path) (w : World) :
  let self := layout root in
  let sp := root // "scripts" // "vixen_synthesis.tcl" in
  let log_path := root // "logs" // "synthesis.log" in
  fs w !! str (root // "scripts") = Some Dir ->
  fs w !! str sp <> Some Dir ->
  fs w !! str (root // "logs") <> Some Dir ->
  let r := run_synthesis decode str_lower spawn fmt_2f self w in
  (value r = inl (FileNotFoundError (str log_path)) \/
   value r = inl (NotADirectoryError (str log_path))) /\
  fs (world r) !! str sp = Some (File (tcl_script self)) /\
  spawned (world r) = spawned w.
Proof.
  intros self sp log_path Hscr Hsp Hlogs r.
  assert (N1 : str sp <> str (root // "logs")) by (unfold sp; path_ne).
  pose proof (generate_tcl_script_ok self w Hscr Hsp) as Hg.
  cbn [self layout project_root] in Hg. fold sp in Hg. fold self in Hg.
  set (w1 := with_fs w _) in Hg.
  destruct (open_w_raises log_path w1) as [e [He Hk]].
  { unfold log_path. rewrite parent_div. unfold w1. rewrite fs_with_fs.
    now rewrite lookup_insert_ne by exact N1. }
  assert (Hr : r = mkRes (inl e)
                     ([str_repeat "=" 70; "Starting Vixen Dio Pro Synthesis Flow";
                       str_repeat "=" 70;
                       "Running: openroad -no_splash " +:+ str sp]) w1).
  { unfold r. cbv beta iota zeta delta [run_synthesis bind print time_time].
    rewrite Hg. cbv beta iota.
    change (logs_dir self // "synthesis.log") with log_path in *.
    rewrite (run_command_logged_open_error spawn self _ _ _ _ _ He).
    reflexivity. }
  rewrite Hr. cbn [value world]. unfold w1. rewrite fs_with_fs.
  split; [destruct Hk as [-> | ->]; auto|].
  split; [apply lookup_insert_eq | reflexivity].
Qed.

(** The whole result of a run whose files can be written and whose child
    exits. *)
Lemma run_synthesis_exact (root : Path) (w : World)
      (rc : Z) (output : string) (f' : gmap string node) (elapsed : Z) :
  let self := layout root in
  let sp := root // "scripts" // "vixen_synthesis.tcl" in
  let log_path := root // "logs" // "synthesis.log" in
  let command := "openroad -no_splash " +:+ str sp in
  let w3 := mkWorld (appended f' log_path output) (clock w + elapsed)
                    (spawned w ++ [command]) in
  fs w !! str (root // "scripts") = Some Dir ->
  fs w !! str sp <> Some Dir ->
  fs w !! str (root // "logs") = Some Dir ->
  fs w !! str log_path <> Some Dir ->
  spawn command (str root)
        (<[str log_path := File ""]> (<[str sp := File (tcl_script self)]> (fs w)))
  = Exited rc output f' elapsed ->
  run_synthesis decode str_lower spawn fmt_2f self w =
  mkRes (inr (rc =? 0))
        ([str_repeat "=" 70; "Starting Vixen Dio Pro Synthesis Flow";
          str_repeat "=" 70; "Running: " +:+ command] ++
         if rc =? 0
         then (bsl +:+ "nSynthesis completed successfully in "
               +:+ fmt_2f elapsed +:+ " seconds!")
                :: printed (print_summary decode str_lower self w3)
         else ["Error: Command failed with return code " +:+ pretty rc;
               bsl +:+ "nSynthesis failed after " +:+ fmt_2f elapsed +:+ " seconds.";
               "Check log file: " +:+ str (root // "logs") +:+ "/synthesis.log"])%list
        w3.
Proof.
  intros self sp log_path command w3 Hscr Hsp Hlogs Hlog Hs.
  assert (N1 : str sp <> str (root // "logs")) by (unfold sp; path_ne).
  assert (N2 : str sp <> str log_path) by (unfold sp, log_path; path_ne).
  pose proof (generate_tcl_script_ok self w Hscr Hsp) as Hg.
  cbn [self layout project_root] in Hg. fold sp in Hg. fold self in Hg.
  set (w1 := with_fs w _) in Hg.
  assert (Ho : open_w log_path w1 =
               mkRes (inr tt) [] (with_fs w1 (<[str log_path := File ""]> (fs w1)))).
  { apply open_w_ok; unfold w1; rewrite fs_with_fs.
    - unfold log_path. rewrite parent_div.
      now rewrite lookup_insert_ne by exact N1.
    - now rewrite lookup_insert_ne by exact N2. }
  assert (Hs' : spawn command (str (project_root self))
                      (fs (with_fs w1 (<[str log_path := File ""]> (fs w1))))
                = Exited rc output f' elapsed) by exact Hs.
  cbv beta iota zeta delta [run_synthesis bind print time_time].
  rewrite Hg. cbv beta iota. fold command.
  change (logs_dir self // "synthesis.log") with log_path.
  rewrite (run_command_logged spawn self _ _ _ _ _ _ _ Ho Hs').
  change (logs_dir self // "synthesis.log") with log_path.
  change (with_fs (after_child (with_fs w1 (<[str log_path := File ""]> (fs w1)))
                               command f' elapsed)
                  (appended f' log_path output)) with w3.
  cbv beta iota.
  replace (clock w3 - clock w) with elapsed by (cbn [w3 clock]; lia).
  destruct (rc =? 0); cbv beta iota.
  - destruct (print_summary_res decode str_lower self w3) as [lines [Hp _]].
    rewrite Hp. unfold ret. cbv beta iota. cbn [app printed].
    now rewrite app_nil_r.
  - reflexivity.
Qed.

(** X12: what a run leaves behind when its files can be written and the
    child exits, with whatever status: the command line
    "openroad -no_splash <script path>" is added once to the history, the
    clock has advanced by the time of the child, and the file system is the
    one the child left except for the log file. *)
Theorem run_synthesis_effects (root : Path) (w : World)
        (rc : Z) (output : string) (f' : gmap string node) (elapsed : Z) :
  let self := layout root in
  let sp := root // "scripts" // "vixen_synthesis.tcl" in
  let log_path := root // "logs" // "synthesis.log" in
  fs w !! str (root // "scripts") = Some Dir ->
  fs w !! str sp <> Some Dir ->
  fs w !! str (root // "logs") = Some Dir ->
  fs w !! str log_path <> Some Dir ->
  spawn ("openroad -no_splash " +:+ str sp) (str root)
        (<[str log_path := File ""]> (<[str sp := File (tcl_script self)]> (fs w)))
  = Exited rc output f' elapsed ->
  let r := run_synthesis decode str_lower spawn fmt_2f self w in
  spawned (world r) = (spawned w ++ ["openroad -no_splash " +:+ str sp])%list /\
  clock (world r) = clock w + elapsed /\
  (forall k, k <> str log_path -> fs (world r) !! k = f' !! k).
Proof.
  intros self sp log_path Hscr Hsp Hlogs Hlog Hs r. subst r self sp log_path.
  rewrite (run_synthesis_exact root w rc output f' elapsed Hscr Hsp Hlogs Hlog Hs).
  cbn [world spawned clock fs].
  split; [reflexivity|]. split; [reflexivity|].
  intros k Hk. unfold appended.
  destruct (f' !! str (root // "logs" // "synthesis.log")) as [[|old]|];
    now apply lookup_insert_ne.
Qed.

(** X13: the report of a failed run: when the child exits with a nonzero
    status, [run_synthesis] prints, after its banner and the command line,
    the line that names the status, the line with the duration, which is
    the time the child took, and the line that points to
    <logs_dir>/synthesis.log, and nothing else. *)
Theorem run_synthesis_failure_report (root : Path) (w : World)
        (rc : Z) (output : string) (f' : gmap string node) (elapsed : Z) :
  let self := layout root in
  let sp := root // "scripts" // "vixen_synthesis.tcl" in
  let log_path := root // "logs" // "synthesis.log" in
  fs w !! str (root // "scripts") = Some Dir ->
  fs w !! str sp <> Some Dir ->
  fs w !! str (root // "logs") = Some Dir ->
  fs w !! str log_path <> Some Dir ->
  spawn ("openroad -no_splash " +:+ str sp) (str root)
        (<[str log_path := File ""]> (<[str sp := File (tcl_script self)]> (fs w)))
  = Exited rc output f' elapsed ->
  rc <> 0 ->
  printed (run_synthesis decode str_lower spawn fmt_2f self w) =
  [str_repeat "=" 70; "Starting Vixen Dio Pro Synthesis Flow"; str_repeat "=" 70;
   "Running: openroad -no_splash " +:+ str sp;
   "Error: Command failed with return code " +:+ pretty rc;
   bsl +:+ "nSynthesis failed after " +:+ fmt_2f elapsed +:+ " seconds.";
   "Check log file: " +:+ str (root // "logs") +:+ "/synthesis.log"].
Proof.
  intros self sp log_path Hscr Hsp Hlogs Hlog Hs Hrc. subst self sp log_path.
  rewrite (run_synthesis_exact root w rc output f' elapsed Hscr Hsp Hlogs Hlog Hs).
  apply Z.eqb_neq in Hrc. rewrite Hrc. reflexivity.
Qed.

End Running2.

Lemma run_synthesis_writes_script_first_witness :
  let self := layout root0 in
  let sp := root0 // "scripts" // "vixen_synthesis.tcl" in
  let log_path := root0 // "logs" // "synthesis.log" in
  let r := run_synthesis decode_ascii ascii_lower sh_ok fmt0 self w0 in
  (value r = inl (FileNotFoundError (str log_path)) \/
   value r = inl (NotADirectoryError (str log_path))) /\
  fs (world r) !! str sp = Some (File (tcl_script self)) /\
  spawned (world r) = spawned w0.
Proof.
  apply (run_synthesis_writes_script_first decode_ascii ascii_lower sh_ok fmt0 root0 w0).
  - reflexivity.
  - vm_compute. discriminate.
  - vm_compute. discriminate.
Defined.

Lemma run_synthesis_effects_witness :
  let sp := root0 // "scripts" // "vixen_synthesis.tcl" in
  let log_path := root0 // "logs" // "synthesis.log" in
  let f' := <["/proj/reports/timing_report.txt" := File "slack = 50ps"]>
              (<[str log_path := File ""]>
                 (<[str sp := File (tcl_script (layout root0))]> (fs w_rerun))) in
  let r := run_synthesis decode_ascii ascii_lower (sh_openroad 0) fmt0 (layout root0) w_rerun in
  spawned (world r) = (spawned w_rerun ++ ["openroad -no_splash " +:+ str sp])%list /\
  clock (world r) = clock w_rerun + 5 /\
  (forall k, k <> str log_path -> fs (world r) !! k = f' !! k).
Proof.
  apply (run_synthesis_effects decode_ascii ascii_lower (sh_openroad 0) fmt0 root0 w_rerun 0 "OpenROAD" _ 5).
  - reflexivity.
  - vm_compute. discriminate.
  - reflexivity.
  - vm_compute. discriminate.
  - reflexivity.
Defined.

Lemma run_synthesis_failure_report_witness :
  printed (run_synthesis decode_ascii ascii_lower (sh_openroad 2) fmt0 (layout root0) w_rerun) =
  [str_repeat "=" 70; "Starting Vixen Dio Pro Synthesis Flow"; str_repeat "=" 70;
   "Running: openroad -no_splash "
     +:+ str (root0 // "scripts" // "vixen_synthesis.tcl");
   "Error: Command failed with return code " +:+ pretty 2;
   bsl +:+ "nSynthesis failed after " +:+ fmt0 5 +:+ " seconds.";
   "Check log file: " +:+ str (root0 // "logs") +:+ "/synthesis.log"].
Proof.
  eapply (run_synthesis_failure_report decode_ascii ascii_lower (sh_openroad 2) fmt0 root0 w_rerun
            2 "OpenROAD" _ 5).
  - reflexivity.
  - vm_compute. discriminate.
  - reflexivity.
  - vm_compute. discriminate.
  - reflexivity.
  - discriminate.
Defined.

(** ** More on the summary *)

Lemma ascii_lower_app (a b : string) :
  ascii_lower (a +:+ b) = ascii_lower a +:+ ascii_lower b.
Proof.
  induction a as [|x a IH]; [reflexivity|].
  rewrite app_cons_s. cbn [ascii_lower]. rewrite app_cons_s. now rewrite IH.
Qed.

Lemma ascii_text_seven_bit (s : string) : ascii_text s = true -> seven_bit s = true.
Proof.
  induction s as [|c s IH]; [reflexivity|]. cbn [ascii_text seven_bit].
  rewrite !andb_true_iff. intros [[H1 _] H2]. split; [exact H1 | now apply IH].
Qed.

Lemma ascii_text_universal_newlines (s : string) :
  ascii_text s = true -> universal_newlines s = s.
Proof.
  induction s as [|c s IH]; [reflexivity|]. cbn [ascii_text universal_newlines].
  rewrite !andb_true_iff, negb_true_iff. intros [[_ H1] H2].
  rewrite H1. now rewrite IH.
Qed.

(** The ASCII text layer gives an ASCII text without carriage return as it
    is. *)
Lemma decode_ascii_text (s : string) : ascii_text s = true -> decode_ascii s = Some s.
Proof.
  intros H. unfold decode_ascii.
  now rewrite (ascii_text_seven_bit s H), (ascii_text_universal_newlines s H).
Qed.

Section SummaryText.

Variable decode : string -> option string.
Variable str_lower : string -> string.

(** X14: the test for the slack section does not depend on the letter
    case.  Let the text layer give an ASCII text without carriage return as
    it is and let [str.lower] map its letters A-Z to a-z and keep the rest
    (as Python does under every ASCII-compatible encoding).  When the timing
    report is such a text and holds, anywhere, a spelling of "slack" in any
    mix of capital and small letters, the summary prints "Timing report
    generated" and not the other message. *)
Theorem print_summary_slack_any_case (self : VixenSynthesisFlow) (w : World)
        (a u b : string) :
  (forall s, ascii_text s = true -> decode s = Some s) ->
  (forall s, ascii_text s = true -> str_lower s = ascii_lower s) ->
  fs w !! str (reports_dir self // "timing_report.txt")
  = Some (File (a +:+ u +:+ b)) ->
  ascii_text (a +:+ u +:+ b) = true ->
  ascii_lower u = "slack" ->
  In msg_timing_generated (printed (print_summary decode str_lower self w)) /\
  ~ In msg_timing_check (printed (print_summary decode str_lower self w)).
Proof.
  intros Hd Hlow Hf Ha Hu.
  destruct (summary_lines_spec decode str_lower self w) as [_ [_ [_ Hl]]].
  rewrite Hf, (Hd _ Ha), (Hlow _ Ha) in Hl.
  assert (Hc : contains "slack" (ascii_lower (a +:+ u +:+ b)) = true).
  { rewrite !ascii_lower_app, Hu. unfold contains.
    pose proof (occurs_count_sub "slack" (ascii_lower a) (ascii_lower b)) as H.
    destruct (count_sub "slack" (ascii_lower a +:+ "slack" +:+ ascii_lower b));
      [congruence | reflexivity]. }
  rewrite Hc in Hl. unfold timing_lines in Hl. injection Hl as H1 H2 _.
  split; [now apply In_existsb | now apply not_In_existsb].
Qed.

(** The lines of the area report, the power report and the GDS file. *)
Lemma summary_report_lines (self : VixenSynthesisFlow) (w : World) :
  let out := printed (print_summary decode str_lower self w) in
  let gds := results_dir self // "vixen_dio_pro_final.gds" in
  existsb (String.eqb "  - Area report generated") out
  = match fs w !! str (reports_dir self // "area_report.txt") with
    | Some _ => true | None => false end /\
  existsb (String.eqb "  - Power report generated") out
  = match fs w !! str (reports_dir self // "power_report.txt") with
    | Some _ => true | None => false end /\
  match fs w !! str gds with
  | Some _ => In ("  - Layout (GDS): " +:+ str gds) out
  | None => existsb (String.eqb ("  - Layout (GDS): " +:+ str gds)) out = false
  end.
Proof.
  run_summary.
  destruct (fs w !! str (reports_dir self // "timing_report.txt"))
    as [[|text]|] eqn:Et; cbv beta iota; rewrite ?Et; cbv beta iota;
  try (destruct (decode text) as [content|]; cbv beta iota;
       [destruct (contains "slack" (str_lower content)); cbv beta iota|]);
  destruct (fs w !! str (reports_dir self // "area_report.txt"))
    as [na|]; cbv beta iota;
  destruct (fs w !! str (reports_dir self // "power_report.txt"))
    as [np|]; cbv beta iota;
  destruct (fs w !! str (results_dir self // "vixen_dio_pro_final.gds"))
    as [ng|]; cbv beta iota;
  generalize (str (results_dir self)), (str (reports_dir self)),
    (str (logs_dir self)), (str (results_dir self // "vixen_dio_pro_final.gds"));
  intros;
  (split; [vm_compute; reflexivity|]); (split; [vm_compute; reflexivity|]);
  first [ vm_compute; reflexivity
        | cbn [app In]; repeat (first [left; reflexivity | right]) ].
Qed.

(** X15: the summary reads the file system and changes nothing in the
    world.  It prints "Area report generated" exactly when
    reports/area_report.txt exists, "Power report generated" exactly when
    reports/power_report.txt exists, and the line of the GDS layout exactly
    when results/vixen_dio_pro_final.gds exists; the contents of these files
    are not read. *)
Theorem print_summary_report_lines (self : VixenSynthesisFlow) (w : World) :
  let out := printed (print_summary decode str_lower self w) in
  let gds := results_dir self // "vixen_dio_pro_final.gds" in
  world (print_summary decode str_lower self w) = w /\
  (In "  - Area report generated" out
   <-> fs w !! str (reports_dir self // "area_report.txt") <> None) /\
  (In "  - Power report generated" out
   <-> fs w !! str (reports_dir self // "power_report.txt") <> None) /\
  (In ("  - Layout (GDS): " +:+ str gds) out <-> fs w !! str gds <> None).
Proof.
  intros out gds.
  destruct (summary_lines_spec decode str_lower self w) as [_ [Hw _]].
  destruct (summary_report_lines self w) as [Ha [Hp Hg]].
  fold out in Ha, Hp, Hg. fold gds in Hg.
  split; [exact Hw|].
  split; [|split].
  - destruct (fs w !! str (reports_dir self // "area_report.txt")).
    + split; [discriminate | intros _; now apply In_existsb].
    + split; [|congruence]. intros H. now apply not_In_existsb in Ha.
  - destruct (fs w !! str (reports_dir self // "power_report.txt")).
    + split; [discriminate | intros _; now apply In_existsb].
    + split; [|congruence]. intros H. now apply not_In_existsb in Hp.
  - destruct (fs w !! str gds).
    + split; [discriminate | intros _; exact Hg].
    + split; [|congruence]. intros H. now apply not_In_existsb in Hg.
Qed.

End SummaryText.

Lemma print_summary_slack_any_case_witness :
  In msg_timing_generated
     (printed (print_summary decode_ascii ascii_lower (layout root0) w_reports)) /\
  ~ In msg_timing_check
       (printed (print_summary decode_ascii ascii_lower (layout root0) w_reports)).
Proof.
  apply (print_summary_slack_any_case decode_ascii ascii_lower (layout root0)
           w_reports "Worst " "SLACK" ": 3").
  - exact decode_ascii_text.
  - reflexivity.
  - reflexivity.
  - reflexivity.
  - reflexivity.
Defined.

(** ** More on the command line *)

Section CommandLine.

Variable decode : string -> option string.
Variable str_lower : string -> string.
Variable spawn : string -> string -> gmap string node -> SpawnResult.
Variable fmt_2f : Z -> string.

(** X16: the exit status of the script is 0 or 1 and nothing else, whatever
    the command line, the file system and the shell: [sys.exit] is called
    with 1 only, and every other exception that leaves [main] gives
    status 1. *)
Theorem main_exit_status_0_or_1 (file : Path) (argv : list string) (w : World) :
  exit_status (main decode str_lower spawn fmt_2f file argv w) = 0 \/
  exit_status (main decode str_lower spawn fmt_2f file argv w) = 1.
Proof.
  unfold main. destruct (asks_help argv); [left; reflexivity|].
  unfold bind, sys_exit, raise, ret.
  destruct (init file w) as [[e|self] out1 w1] eqn:Hi.
  { right. apply exit_status_raise.
    pose proof (roe_init file w e) as He. rewrite Hi in He. now apply He. }
  destruct (check_prerequisites spawn self w1) as [[e|[|]] out2 w2] eqn:Hc.
  { right. apply exit_status_raise.
    pose proof (roe_check_prerequisites spawn self w1 e) as He.
    rewrite Hc in He. now apply He. }
  2:{ right. reflexivity. }
  destruct (run_synthesis decode str_lower spawn fmt_2f self w2) as [[e|[|]] out3 w3] eqn:Hr.
  - right. apply exit_status_raise.
    pose proof (roe_run_synthesis decode str_lower spawn fmt_2f self w2 e) as He.
    rewrite Hr in He. now apply He.
  - left. reflexivity.
  - right. reflexivity.
Qed.

(** X17: when construction fails because the project root is not a
    directory, [main] ends with the exception of the first mkdir and exit
    status 1, having printed nothing, probed no tool and changed nothing. *)
Theorem main_without_root (file : Path) (argv : list string) (w : World) :
  asks_help argv = false ->
  fs w !! str (parent (parent file)) <> Some Dir ->
  let r := main decode str_lower spawn fmt_2f file argv w in
  exit_status r = 1 /\ printed r = [] /\ world r = w /\
  (value r = inl (FileNotFoundError (str (parent (parent file) // "results"))) \/
   value r = inl (NotADirectoryError (str (parent (parent file) // "results")))).
Proof.
  intros Hh Hroot r.
  destruct (init_bad_root file w Hroot) as [e [He Hk]].
  assert (Hr : r = mkRes (inl e) [] w).
  { unfold r, main. rewrite Hh. unfold bind at 1. now rewrite He. }
  rewrite Hr. cbn [printed world value].
  split; [destruct Hk as [-> | ->]; reflexivity|].
  split; [reflexivity|]. split; [reflexivity|].
  destruct Hk as [-> | ->]; auto.
Qed.

Variable found : string -> bool.

(** The result of the check when every probe can be started. *)
Lemma check_prerequisites_res (self : VixenSynthesisFlow) (w : World) :
  (forall tool, In tool tools -> which_probes spawn found self (fs w) tool) ->
  exists out w',
    check_prerequisites spawn self w = mkRes (inr (forallb found tools)) out w' /\
    fs w' = fs w /\
    spawned w' = (spawned w ++ map (fun t => "which " +:+ t) tools)%list.
Proof.
  intros Hw.
  destruct (probe_tools_world spawn found self tools [] w Hw)
    as [v [out [w' [Heq [Hfs [Hsp _]]]]]].
  destruct (probe_tools_spec spawn found self tools [] w Hw)
    as [out2 [w2 [Heq2 _]]].
  rewrite Heq in Heq2. injection Heq2 as -> <- <-.
  unfold check_prerequisites. unfold bind at 1. rewrite Heq.
  cbn [app]. unfold tools in *. cbn [List.filter forallb].
  destruct (found "openroad"), (found "yosys"), (found "klayout");
    cbn [negb andb]; cbv beta iota; eexists _, w';
    (split; [reflexivity|]); split; assumption.
Qed.

(** X18: when a required tool is missing, the flow stops after the probes:
    [main] exits with status 1, the three output directories have been made
    by the construction and nothing else has been written (no control
    script, no log file), and the only children started are the three
    probes: openroad is not run. *)
Theorem main_missing_tool_writes_nothing
        (file : Path) (argv : list string) (w : World) :
  let root := parent (parent file) in
  let f1 := <[str (root // "logs") := Dir]>
              (<[str (root // "reports") := Dir]>
                 (<[str (root // "results") := Dir]> (fs w))) in
  asks_help argv = false ->
  fs w !! str root = Some Dir ->
  (forall n t, In n ["results"; "reports"; "logs"] ->
               fs w !! str (root // n) <> Some (File t)) ->
  (forall tool, In tool tools -> which_probes spawn found (layout root) f1 tool) ->
  forallb found tools = false ->
  let r := main decode str_lower spawn fmt_2f file argv w in
  exit_status r = 1 /\
  fs (world r) = f1 /\
  spawned (world r)
  = (spawned w ++ ["which openroad"; "which yosys"; "which klayout"])%list.
Proof.
  intros root f1 Hh Hroot Hnf Hw Hmiss r.
  pose proof (init_ok file w Hroot Hnf) as Hinit. fold root in Hinit.
  fold f1 in Hinit.
  destruct (check_prerequisites_res (layout root) (with_fs w f1) Hw)
    as [out [w' [Hc [Hfs Hsp]]]].
  rewrite Hmiss in Hc.
  assert (Hr : r = mkRes (inl (SystemExit 1)) out w').
  { unfold r, main. rewrite Hh. unfold bind, sys_exit, raise, ret.
    rewrite Hinit. cbv beta iota. rewrite Hc. cbv beta iota.
    now rewrite app_nil_r. }
  rewrite Hr. cbn [world]. repeat split; assumption.
Qed.

End CommandLine.

Lemma main_without_root_witness :
  let r := main decode_ascii ascii_lower sh_ok fmt0 file0 ["vixen_synthesis.py"] w_empty in
  exit_status r = 1 /\ printed r = [] /\ world r = w_empty /\
  (value r = inl (FileNotFoundError (str (parent (parent file0) // "results"))) \/
   value r = inl (NotADirectoryError (str (parent (parent file0) // "results")))).
Proof.
  apply (main_without_root decode_ascii ascii_lower sh_ok fmt0 file0 ["vixen_synthesis.py"] w_empty).
  - reflexivity.
  - vm_compute. discriminate.
Defined.

Lemma main_missing_tool_writes_nothing_witness :
  let root := parent (parent file0) in
  let f1 := <[str (root // "logs") := Dir]>
              (<[str (root // "reports") := Dir]>
                 (<[str (root // "results") := Dir]> (fs w0))) in
  let r := main decode_ascii ascii_lower sh_no_yosys fmt0 file0 ["vixen_synthesis.py"] w0 in
  exit_status r = 1 /\
  fs (world r) = f1 /\
  spawned (world r)
  = (spawned w0 ++ ["which openroad"; "which yosys"; "which klayout"])%list.
Proof.
  apply (main_missing_tool_writes_nothing decode_ascii ascii_lower sh_no_yosys fmt0 found_no_yosys
           file0 ["vixen_synthesis.py"] w0).
  - reflexivity.
  - reflexivity.
  - intros n t [<- | [<- | [<- | []]]]; vm_compute; discriminate.
  - intros tool [<- | [<- | [<- | []]]].
    + exists 0, "", 1. split; reflexivity.
    + exists 1, "", 1. split; reflexivity.
    + exists 0, "", 1. split; reflexivity.
  - reflexivity.
Defined.

(** ** The run and the summary together *)



(** ** The command line, end to end *)



